(** * CPython bindings of the UJRPC server (src/python.c)

    A shallow embedding of the signature deduction ([deduce_parameters]),
    of the call marshaller ([wrapper]) and of the registration entry point
    ([server_add_procedure]) of [python.c], with the properties of the
    specification stated over it.

    Conventions of the embedding.
    - A C [long] or [size_t] is a [Z]; the counts read from a code object
      are bounded by CPython far below the width of [long], so no
      operation of this file wraps.
    - A pointer that may be [NULL] is an [option]; memory obtained from
      [malloc] and not yet written is a list of [None] cells.
    - What C leaves undefined (a null dereference, a store past the end of
      an allocation, the use of an unwritten array cell or of an unwritten
      pointer) is an explicit [Crash] of the error monad [outcome],
      whatever a given run of the compiled program does after it.
    - The Python runtime and the RPC engine are not part of [python.c]:
      the first is the record [py_runtime], the second the record
      [ujrpc_call_t] of parameter getters. *)

From Stdlib Require Import ZArith Lia.
From stdpp Require Import base option list gmap strings.

Local Open Scope Z_scope.

(** ** The error monad *)

Inductive fault : Type :=
  | null_dereference
  | out_of_bounds
  | uninitialised_read.

Inductive outcome (A : Type) : Type :=
  | Done (a : A)
  | Crash (why : fault).

Arguments Done {A} a.
Arguments Crash {A} why.

#[global] Instance outcome_ret : MRet outcome := fun A a => Done a.

#[global] Instance outcome_bind : MBind outcome := fun A B k m =>
  match m with
  | Done a => k a
  | Crash why => Crash why
  end.

(** [for (i = lo; i < hi; ++i) body], threading the loop state [s]. *)
Fixpoint for_steps {S : Type} (n : nat) (i : Z)
    (body : Z -> S -> outcome S) (s : S) : outcome S :=
  match n with
  | O => Done s
  | Datatypes.S n' => s' ← body i s; for_steps n' (i + 1) body s'
  end.

Definition for_range {S : Type} (lo hi : Z)
    (body : Z -> S -> outcome S) (s : S) : outcome S :=
  for_steps (Z.to_nat (hi - lo)) lo body s.

(** ** Python objects *)

Module Py.

(** The builtin types the marshaller tests for, and [object] for every
    other annotation. *)
Inductive PyTypeObject : Type :=
  | PyBool_Type
  | PyLong_Type
  | PyFloat_Type
  | PyBytes_Type
  | PyUnicode_Type
  | PyBaseObject_Type.

#[global] Instance PyTypeObject_eq_dec : EqDecision PyTypeObject.
Proof. solve_decision. Defined.

(** [bool] derives from [int]; every type derives from [object]. *)
Definition PyType_IsSubtype (a b : PyTypeObject) : bool :=
  match a, b with
  | PyBool_Type, PyLong_Type => true
  | _, PyBaseObject_Type => true
  | _, _ => bool_decide (a = b)
  end.

(** Values; a [double] is kept as its 64-bit pattern. *)
Inductive PyObject : Type :=
  | Py_None
  | Py_Bool (b : bool)
  | Py_Long (n : Z)
  | Py_Float (bits : Z)
  | Py_Unicode (s : string)
  | Py_Bytes (s : string).

#[global] Instance PyObject_eq_dec : EqDecision PyObject.
Proof. solve_decision. Defined.

Definition Py_True : PyObject := Py_Bool true.
Definition Py_False : PyObject := Py_Bool false.

(** [__code__]: the attributes [deduce_parameters] reads. *)
Record PyCodeObject : Type := {
  co_varnames : list string;
  co_flags : Z;
  co_argcount : Z;
  co_posonlyargcount : Z;
  co_kwonlyargcount : Z
}.

(** A function object.  [func_defaults] is [__defaults__] ([None] and the
    empty tuple both give the empty list: [PyTuple_CheckExact] fails on
    the first and [PyTuple_Size] is 0 on the second); [func_kwdefaults] is
    [__kwdefaults__] ([None] is the empty mapping, [PyDict_GetItem] on a
    non-dictionary returns [NULL]); [func_annotations] is what
    [PyFunction_GetAnnotations] returns: the annotation dictionary, or
    [NULL] ([None]) for a function that has none. *)
Record PyFunctionObject : Type := {
  func_name : string;
  func_code : PyCodeObject;
  func_defaults : list PyObject;
  func_kwdefaults : gmap string PyObject;
  func_annotations : option (gmap string PyTypeObject)
}.

(** The annotation of a name, if the function has one for it. *)
Definition annotation (fn : PyFunctionObject) (param : string)
    : option PyTypeObject :=
  func_annotations fn ≫= fun d => d !! param.

Definition CO_VARARGS : Z := 4.
Definition CO_VARKEYWORDS : Z := 8.

(** [PyTuple_GetItem]: [NULL] when the index is out of range. *)
Definition PyTuple_GetItem {A : Type} (t : list A) (i : Z) : option A :=
  if i <? 0 then None else t !! Z.to_nat i.

(** [PyDict_GetItem(d, key)] inspects the type of [d], then the type of
    [key]: a [NULL] dictionary or a [NULL] key is a null dereference; a
    missing key gives [NULL]. *)
Definition PyDict_GetItem {V : Type} (d : option (gmap string V))
    (key : option string) : outcome (option V) :=
  match d, key with
  | Some d, Some k => Done (d !! k)
  | _, _ => Crash null_dereference
  end.

End Py.
Import Py.

(** ** The data of python.c *)

Definition max_response_length : Z := 1024.

Inductive py_param_kind_t : Type :=
  | POSITIONAL_ONLY
  | POSITIONAL_OR_KEYWORD
  | VAR_POSITIONAL
  | KEYWORD_ONLY
  | VAR_KEYWORD.

#[global] Instance py_param_kind_eq_dec : EqDecision py_param_kind_t.
Proof. solve_decision. Defined.

(** The integer value C gives each enumerator. *)
Definition enum_value (k : py_param_kind_t) : Z :=
  match k with
  | POSITIONAL_ONLY => 0
  | POSITIONAL_OR_KEYWORD => 1
  | VAR_POSITIONAL => 2
  | KEYWORD_ONLY => 3
  | VAR_KEYWORD => 4
  end.

Record py_param_t : Type := {
  name : string;
  value : option PyObject;
  type : option PyTypeObject;
  kind : py_param_kind_t
}.

#[global] Instance py_param_eq_dec : EqDecision py_param_t.
Proof. solve_decision. Defined.

(** [u_params] is the allocated array: one cell per allocated element,
    [None] while the cell has not been written. *)
Record py_wrapper_t : Type := {
  u_params : list (option py_param_t);
  params_cnt : Z;
  callable : option PyFunctionObject
}.

(** The zero-initialised [static py_wrapper_t wrap]. *)
Definition wrap_initial : py_wrapper_t :=
  {| u_params := []; params_cnt := 0; callable := None |}.

(** ** deduce_parameters *)

(** The locals of [deduce_parameters] that its loops update. *)
Record deduce_locals : Type := {
  parameters : list (option py_param_t);
  param_i : nat;
  posonly_left : Z
}.

(** [parameters[param_i++] = param]. *)
Definition store_param (param : py_param_t) (st : deduce_locals)
    : outcome deduce_locals :=
  if decide (param_i st < length (parameters st))%nat
  then Done {| parameters := <[param_i st := Some param]> (parameters st);
               param_i := S (param_i st);
               posonly_left := posonly_left st |}
  else Crash out_of_bounds.

(** [posonly_left-- > 0 ? POSITIONAL_ONLY : POSITIONAL_OR_KEYWORD]. *)
Definition positional_kind (st : deduce_locals)
    : py_param_kind_t * deduce_locals :=
  (if 0 <? posonly_left st then POSITIONAL_ONLY else POSITIONAL_OR_KEYWORD,
   {| parameters := parameters st;
      param_i := param_i st;
      posonly_left := posonly_left st - 1 |}).

Section deduce.
Variable fn : PyFunctionObject.

Let arg_names := co_varnames (func_code fn).
Let annotations := func_annotations fn.
Let defaults := func_defaults fn.
Let kwdefaults := Some (func_kwdefaults fn).

(** Body of the loop over the positional parameters without default. *)
Definition non_default_body (i : Z) (st : deduce_locals)
    : outcome deduce_locals :=
  let param_name := PyTuple_GetItem arg_names i in
  param_type ← PyDict_GetItem annotations param_name;
  let '(param_kind, st) := positional_kind st in
  store_param {| name := default ""%string param_name;
                 value := None;
                 type := param_type;
                 kind := param_kind |} st.

(** Body of the loop over the positional parameters with a default. *)
Definition default_body (non_default_count : Z) (i : Z)
    (st : deduce_locals) : outcome deduce_locals :=
  let param_name := PyTuple_GetItem arg_names i in
  let param_value := PyTuple_GetItem defaults (i - non_default_count) in
  param_type ← PyDict_GetItem annotations param_name;
  let '(param_kind, st) := positional_kind st in
  store_param {| name := default ""%string param_name;
                 value := param_value;
                 type := param_type;
                 kind := param_kind |} st.

(** The [if (co_flags & CO_VARARGS)] block. *)
Definition var_positional_block (pos_count keyword_only_count : Z)
    (st : deduce_locals) : outcome deduce_locals :=
  let param_name :=
    PyTuple_GetItem arg_names (pos_count + keyword_only_count) in
  param_type ← PyDict_GetItem annotations param_name;
  store_param {| name := default ""%string param_name;
                 value := None;
                 type := param_type;
                 kind := VAR_POSITIONAL |} st.

(** Body of the loop over the keyword-only parameters. *)
Definition keyword_only_body (i : Z) (st : deduce_locals)
    : outcome deduce_locals :=
  let param_name := PyTuple_GetItem arg_names i in
  param_value ← PyDict_GetItem kwdefaults param_name;
  param_type ← PyDict_GetItem annotations param_name;
  store_param {| name := default ""%string param_name;
                 value := param_value;
                 type := param_type;
                 kind := KEYWORD_ONLY |} st.

(** [co_flags && CO_VARARGS]: the logical conjunction of C. *)
Definition logical_and (a b : Z) : Z :=
  if bool_decide (a ≠ 0) && bool_decide (b ≠ 0) then 1 else 0.

(** The [if (co_flags & CO_VARKEYWORDS)] block. *)
Definition var_keyword_block (co_flags pos_count keyword_only_count : Z)
    (st : deduce_locals) : outcome deduce_locals :=
  let param_name :=
    PyTuple_GetItem arg_names
      (pos_count + keyword_only_count + logical_and co_flags CO_VARARGS) in
  param_type ← PyDict_GetItem annotations param_name;
  store_param {| name := default ""%string param_name;
                 value := None;
                 type := param_type;
                 kind := VAR_KEYWORD |} st.

(** [total_params], as line 88 computes it. *)
Definition total_params : Z :=
  let code := func_code fn in
  co_argcount code + Z.land (co_flags code) CO_VARARGS
  + co_kwonlyargcount code + Z.land (co_flags code) CO_VARKEYWORDS.

(** The locals after the last block, before [wrap] is updated. *)
Definition deduce_fill : outcome deduce_locals :=
  let code := func_code fn in
  let co_flags := co_flags code in
  let pos_count := co_argcount code in
  let posonly_count := co_posonlyargcount code in
  let keyword_only_count := co_kwonlyargcount code in
  let pos_default_count := Z.of_nat (length defaults) in
  let non_default_count := pos_count - pos_default_count in
  let st := {| parameters := replicate (Z.to_nat total_params) None;
               param_i := 0;
               posonly_left := posonly_count |} in
  st ← for_range 0 non_default_count non_default_body st;
  st ← for_range non_default_count pos_count
         (default_body non_default_count) st;
  st ← (if bool_decide (Z.land co_flags CO_VARARGS ≠ 0)
        then var_positional_block pos_count keyword_only_count st
        else Done st);
  st ← for_range pos_count (pos_count + keyword_only_count)
         keyword_only_body st;
  if bool_decide (Z.land co_flags CO_VARKEYWORDS ≠ 0)
  then var_keyword_block co_flags pos_count keyword_only_count st
  else Done st.

(** [deduce_parameters(callable)]: on return (always with 0) [wrap] holds
    the new array and count; [wrap.callable] is left as it was. *)
Definition deduce_parameters (wrap : py_wrapper_t)
    : outcome py_wrapper_t :=
  st ← deduce_fill;
  Done {| u_params := parameters st;
          params_cnt := total_params;
          callable := callable wrap |}.
End deduce.

(** The descriptors that were written, in array order. *)
Definition written_params (w : py_wrapper_t) : list py_param_t :=
  omap id (u_params w).



(** ** The RPC engine, as python.c uses it *)

Inductive wire_type : Type := wire_bool | wire_i64 | wire_f64 | wire_str.

#[global] Instance wire_type_eq_dec : EqDecision wire_type.
Proof. solve_decision. Defined.

(** Modelled from the spec: the call context of the engine
    ([ujrpc/ujrpc.h] is not among the sources).  [getNamed(ctx, name,
    typeTag) -> optional Value] and [getPositional(ctx, index, typeTag) ->
    optional Value], one pair per scalar type; a getter that yields no
    value returns [false] and leaves its output argument alone. *)
Record ujrpc_call_t : Type := {
  ujrpc_param_named_bool : string -> option bool;
  ujrpc_param_named_i64 : string -> option Z;
  ujrpc_param_named_f64 : string -> option Z;
  ujrpc_param_named_str : string -> option string;
  ujrpc_param_positional_bool : Z -> option bool;
  ujrpc_param_positional_i64 : Z -> option Z;
  ujrpc_param_positional_f64 : Z -> option Z;
  ujrpc_param_positional_str : Z -> option string
}.

(** One getter call made on the call context. *)
Inductive ujrpc_access : Type :=
  | named_access (t : wire_type) (param : string)
  | positional_access (t : wire_type) (position : Z).

#[global] Instance ujrpc_access_eq_dec : EqDecision ujrpc_access.
Proof. solve_decision. Defined.

(** The only handler python.c hands to [ujrpc_add_procedure]. *)
Inductive ujrpc_callback_t : Type := callback_wrapper.

(** Modelled from the spec: the routing table of the engine,
    [registerHandler(engineHandle, name, handlerFn)] tells the engine
    which name routes to which handler. *)
Definition ujrpc_add_procedure (server : gmap string ujrpc_callback_t)
    (procedure : string) (callback : ujrpc_callback_t)
    : gmap string ujrpc_callback_t :=
  <[procedure := callback]> server.

Record ujrpc_config_t : Type := {
  port : Z;
  queue_depth : Z;
  max_callbacks : Z
}.

Record py_server_t : Type := {
  config : ujrpc_config_t;
  server : gmap string ujrpc_callback_t;
  count_added : Z;
  thread_cnt : Z
}.

(** ** The Python runtime, as python.c uses it *)

(** A cell of the argument tuple: [NULL] as [PyTuple_New] leaves it, an
    object, or the object built from the value of a scalar C local
    ([bool], [Py_ssize_t], [double]) that nothing has written. *)
Inductive tuple_item : Type :=
  | item_NULL
  | item (o : PyObject)
  | item_of_unwritten (t : wire_type).

#[global] Instance tuple_item_eq_dec : EqDecision tuple_item.
Proof. solve_decision. Defined.

(** [PyObject_CallObject] runs the body of the callable on a tuple all
    of whose cells are set and gives its result, [NULL] when it raised; on
    a tuple with a [NULL] cell the call dereferences that cell, which
    [wrapper] below accounts for.  [to_string] (helpers/py_parse.hpp, not
    among the sources) returns a status and stores bytes from [data[0]]
    on, their number in [*len]; it is not told the capacity of [data], so
    that what it stores beyond the [max_response_length] bytes [wrapper]
    allocated is stored past the end of the allocation. *)
Record py_runtime : Type := {
  PyObject_CallObject : PyFunctionObject -> list tuple_item -> option PyObject;
  to_string : option PyObject -> Z * list Byte.byte
}.

(** ** wrapper *)

(** Conversion of a C integer to [bool]. *)
Definition c_bool (n : Z) : bool := bool_decide (n ≠ 0).

Definition may_have_name (k : py_param_kind_t) : bool :=
  c_bool (Z.lor (Z.lor (Z.land (enum_value k) (enum_value POSITIONAL_OR_KEYWORD))
                       (Z.land (enum_value k) (enum_value KEYWORD_ONLY)))
                (Z.land (enum_value k) (enum_value VAR_KEYWORD))).

Definition may_have_pos (k : py_param_kind_t) : bool :=
  c_bool (Z.lor (Z.lor (Z.land (enum_value k) (enum_value POSITIONAL_OR_KEYWORD))
                       (Z.land (enum_value k) (enum_value POSITIONAL_ONLY)))
                (Z.land (enum_value k) (enum_value VAR_POSITIONAL))).

(** [if (may_have_name && name_len > 0) got_named = named(call, name,
    name_len, &res);] gives [got_named], [res] and the call made. *)
Definition try_named {A : Type} (getter : string -> option A) (t : wire_type)
    (has_name : bool) (param : string) (name_len : Z)
    : bool * option A * list ujrpc_access :=
  if has_name && (0 <? name_len)
  then (bool_decide (is_Some (getter param)), getter param,
        [named_access t param])
  else (false, None, []).

(** [if (may_have_pos && !got_named) positional(call, i, &res);]. *)
Definition try_positional {A : Type} (getter : Z -> option A) (t : wire_type)
    (has_pos got_named : bool) (i : Z) (res : option A)
    : option A * list ujrpc_access :=
  if has_pos && negb got_named
  then (match getter i with Some v => Some v | None => res end,
        [positional_access t i])
  else (res, []).

(** The string branch passes [res] itself to the positional getter, not
    its address: the call is made and the local keeps what it held,
    whatever the request holds at that position.
    [PyUnicode_FromStringAndSize(res, len)] then reads through [res]: when
    no named getter wrote it, that is the use of an unwritten pointer
    (see [marshal_param]). *)
Definition try_positional_str (has_pos got_named : bool) (i : Z)
    (res : option string) : option string * list ujrpc_access :=
  if has_pos && negb got_named
  then (res, [positional_access wire_str i])
  else (res, []).

(** The object stored in the tuple from the scalar local [res]. *)
Definition item_from {A : Type} (t : wire_type) (build : A -> PyObject)
    (res : option A) : tuple_item :=
  match res with
  | Some v => item (build v)
  | None => item_of_unwritten t
  end.

(** One iteration of the loop of [wrapper] on the descriptor [p] at index
    [i]: the getter calls it makes, and the object it stores in [args[i]]
    ([None] when the iteration stores nothing). *)
Definition marshal_param (call : ujrpc_call_t) (i : Z) (p : py_param_t)
    : outcome (list ujrpc_access * option tuple_item) :=
  let has_name := may_have_name (kind p) in
  let has_pos := may_have_pos (kind p) in
  let name_len := if has_name then Z.of_nat (String.length (name p)) else -1 in
  let param := if has_name then name p else ""%string in
  match type p with
  | None => Crash null_dereference
  | Some ty =>
    if PyType_IsSubtype ty PyBool_Type then
      let '(got_named, res, named) :=
        try_named (ujrpc_param_named_bool call) wire_bool
          has_name param name_len in
      let '(res, positional) :=
        try_positional (ujrpc_param_positional_bool call) wire_bool
          has_pos got_named i res in
      Done (named ++ positional,
            Some (item_from wire_bool
                    (fun b : bool => if b then Py_True else Py_False) res))
    else if PyType_IsSubtype ty PyLong_Type then
      let '(got_named, res, named) :=
        try_named (ujrpc_param_named_i64 call) wire_i64
          has_name param name_len in
      let '(res, positional) :=
        try_positional (ujrpc_param_positional_i64 call) wire_i64
          has_pos got_named i res in
      Done (named ++ positional, Some (item_from wire_i64 Py_Long res))
    else if PyType_IsSubtype ty PyFloat_Type then
      let '(got_named, res, named) :=
        try_named (ujrpc_param_named_f64 call) wire_f64
          has_name param name_len in
      let '(res, positional) :=
        try_positional (ujrpc_param_positional_f64 call) wire_f64
          has_pos got_named i res in
      Done (named ++ positional, Some (item_from wire_f64 Py_Float res))
    else if PyType_IsSubtype ty PyBytes_Type then
      Done ([], None)
    else if PyType_IsSubtype ty PyUnicode_Type then
      let '(got_named, res, named) :=
        try_named (ujrpc_param_named_str call) wire_str
          has_name param name_len in
      let '(res, positional) :=
        try_positional_str has_pos got_named i res in
      match res with
      | Some s => Done (named ++ positional, Some (item (Py_Unicode s)))
      | None => Crash uninitialised_read
      end
    else Done ([], None)
  end.

(** The locals of [wrapper] its loop updates, with the getter calls made
    so far. *)
Record wrapper_locals : Type := {
  args : list tuple_item;
  accesses : list ujrpc_access
}.

(** [wrap.u_params[i]]. *)
Definition read_param (wrap : py_wrapper_t) (i : Z) : outcome py_param_t :=
  match u_params wrap !! Z.to_nat i with
  | None => Crash out_of_bounds
  | Some None => Crash uninitialised_read
  | Some (Some p) => Done p
  end.

(** Body of the loop of [wrapper]. *)
Definition wrapper_body (wrap : py_wrapper_t) (call : ujrpc_call_t) (i : Z)
    (st : wrapper_locals) : outcome wrapper_locals :=
  p ← read_param wrap i;
  '(made, stored) ← marshal_param call i p;
  Done {| args := match stored with
                  | Some o => <[Z.to_nat i := o]> (args st)
                  | None => args st
                  end;
          accesses := accesses st ++ made |}.

(** What one run of [wrapper] did: the getter calls, the callable invoked
    and its argument tuple, and the content handed to
    [ujrpc_call_reply_content] with the capacity of the buffer holding it. *)
Record wrapper_run : Type := {
  run_accesses : list ujrpc_access;
  run_callable : PyFunctionObject;
  run_args : list tuple_item;
  reply_capacity : Z;
  reply_content : list Byte.byte
}.

(** The stores of [to_string] into a buffer of [capacity] bytes obtained
    from [malloc]: the bytes of [content] from index 0 on.  [to_string] is
    not given the capacity and python.c compares nothing with it: a byte
    of [content] beyond the capacity is stored past the end of the
    allocation. *)
Definition write_buffer (capacity : Z) (content : list Byte.byte)
    : outcome (list Byte.byte) :=
  if capacity <? Z.of_nat (length content)
  then Crash out_of_bounds
  else Done content.

(** [wrapper(call)].  [PyObject_CallObject] reads every cell of the tuple
    it is given: a cell that no iteration of the loop set is still [NULL],
    and the call dereferences it. *)
Definition wrapper (rt : py_runtime) (wrap : py_wrapper_t)
    (call : ujrpc_call_t) : outcome wrapper_run :=
  let st := {| args := replicate (Z.to_nat (params_cnt wrap)) item_NULL;
               accesses := [] |} in
  st ← for_range 0 (params_cnt wrap) (wrapper_body wrap call) st;
  match callable wrap with
  | None => Crash null_dereference
  | Some fn =>
    if bool_decide (item_NULL ∈ args st) then Crash null_dereference
    else
    let response := PyObject_CallObject rt fn (args st) in
    let capacity := max_response_length in
    let '(res, content) := to_string rt response in
    parsed_response ← write_buffer capacity content;
    Done {| run_accesses := accesses st;
            run_callable := fn;
            run_args := args st;
            reply_capacity := capacity;
            reply_content := parsed_response |}
  end.

(** ** The server object *)

(** An object handed to a method: a function, a callable that is not a
    function and has no [__code__] (a builtin such as [len], a class), or
    a value that cannot be called. *)
Inductive py_object : Type :=
  | py_function (fn : PyFunctionObject)
  | py_builtin (qualname : string)
  | py_value (o : PyObject).

Definition PyCallable_Check (o : py_object) : bool :=
  match o with
  | py_function _ | py_builtin _ => true
  | py_value _ => false
  end.

(** What a method returns to the interpreter: an object, or [NULL] with an
    exception set. *)
Inductive py_return : Type :=
  | returned (o : PyObject)
  | raised_TypeError (message : string).

(** [PyArg_ParseTuple(args, "O", &procedure)]. *)
Definition parse_one_object (args : list py_object) : option py_object :=
  match args with
  | [procedure] => Some procedure
  | _ => None
  end.

(** [server_add_procedure(self, args)], with the global [wrap] passed in
    and out.  On a callable without [__code__], [deduce_parameters] gets
    [NULL] from its first [PyObject_GetAttrString] and hands it to the
    second. *)
Definition server_add_procedure (self : py_server_t) (args : list py_object)
    (wrap : py_wrapper_t) : outcome (py_return * py_server_t * py_wrapper_t) :=
  match parse_one_object args with
  | None => Done (raised_TypeError "Need a callable object!", self, wrap)
  | Some procedure =>
    if negb (PyCallable_Check procedure)
    then Done (raised_TypeError "Need a callable object!", self, wrap)
    else
      match procedure with
      | py_function procedure =>
        wrap ← deduce_parameters procedure wrap;
        let wrap := {| u_params := u_params wrap;
                       params_cnt := params_cnt wrap;
                       callable := Some procedure |} in
        let self := {| config := config self;
                       server := ujrpc_add_procedure (server self)
                                   (func_name procedure) callback_wrapper;
                       count_added := count_added self;
                       thread_cnt := thread_cnt self |} in
        Done (returned Py_None, self, wrap)
      | _ => Crash null_dereference
      end
  end.

Definition server_callbacks_count (self : py_server_t) : Z :=
  count_added self.

(** [server_new] followed by [server_init]: the allocation is zeroed, the
    initialiser sets the configuration and the thread count, and
    [ujrpc_init] gives an engine with no procedure. *)
Definition server_init (port queue_depth max_callbacks : Z) : py_server_t :=
  {| config := {| port := port;
                  queue_depth := queue_depth;
                  max_callbacks := max_callbacks |};
     server := ∅;
     count_added := 0;
     thread_cnt := 1 |}.

(** Modelled from the spec: the dispatch of the engine, a request for a
    name runs the handler registered under it ([None]: no such
    procedure). *)
Definition ujrpc_take_call (rt : py_runtime) (self : py_server_t)
    (wrap : py_wrapper_t) (procedure : string) (call : ujrpc_call_t)
    : option (outcome wrapper_run) :=
  match server self !! procedure with
  | Some callback_wrapper => Some (wrapper rt wrap call)
  | None => None
  end.


(** A script that registers the given objects one after the other, each
    with [server.add_procedure(obj)]. *)
Fixpoint add_procedures (procedures : list py_object) (self : py_server_t)
    (wrap : py_wrapper_t) : outcome (py_server_t * py_wrapper_t) :=
  match procedures with
  | [] => Done (self, wrap)
  | procedure :: rest =>
    '(_, self, wrap) ← server_add_procedure self [procedure] wrap;
    add_procedures rest self wrap
  end.

(** ** Reading a call context by wire type *)

(** The wire type the marshaller requests for a declared type: the chain
    of [PyType_IsSubtype] tests of [wrapper], [None] for the types it
    requests nothing for. *)
Definition wire_of (ty : PyTypeObject) : option wire_type :=
  if PyType_IsSubtype ty PyBool_Type then Some wire_bool
  else if PyType_IsSubtype ty PyLong_Type then Some wire_i64
  else if PyType_IsSubtype ty PyFloat_Type then Some wire_f64
  else if PyType_IsSubtype ty PyBytes_Type then None
  else if PyType_IsSubtype ty PyUnicode_Type then Some wire_str
  else None.

(** The native object a named, resp. positional, getter of the given wire
    type yields, if any. *)
Definition named_value (call : ujrpc_call_t) (t : wire_type) (param : string)
    : option PyObject :=
  match t with
  | wire_bool => Py_Bool <$> ujrpc_param_named_bool call param
  | wire_i64 => Py_Long <$> ujrpc_param_named_i64 call param
  | wire_f64 => Py_Float <$> ujrpc_param_named_f64 call param
  | wire_str => Py_Unicode <$> ujrpc_param_named_str call param
  end.

Definition positional_value (call : ujrpc_call_t) (t : wire_type) (i : Z)
    : option PyObject :=
  match t with
  | wire_bool => Py_Bool <$> ujrpc_param_positional_bool call i
  | wire_i64 => Py_Long <$> ujrpc_param_positional_i64 call i
  | wire_f64 => Py_Float <$> ujrpc_param_positional_f64 call i
  | wire_str => Py_Unicode <$> ujrpc_param_positional_str call i
  end.

(** A script that registers [procedures] on a fresh server, after which
    the engine takes one call for [procedure]. *)
Definition run_script (rt : py_runtime) (self : py_server_t)
    (procedures : list py_object) (procedure : string) (call : ujrpc_call_t)
    : option (outcome wrapper_run) :=
  match add_procedures procedures self wrap_initial with
  | Done (self, wrap) => ujrpc_take_call rt self wrap procedure call
  | Crash why => Some (Crash why)
  end.

(** ** Sample functions, requests and runtimes *)

Module Samples.

(** A [def] statement; without any annotation it leaves the function
    without annotation dictionary. *)
Definition def (fname : string) (varnames : list string)
    (flags argcount posonlyargcount kwonlyargcount : Z)
    (defaults : list PyObject) (kwdefaults : gmap string PyObject)
    (annotations : gmap string PyTypeObject) : PyFunctionObject :=
  {| func_name := fname;
     func_code := {| co_varnames := varnames;
                     co_flags := flags;
                     co_argcount := argcount;
                     co_posonlyargcount := posonlyargcount;
                     co_kwonlyargcount := kwonlyargcount |};
     func_defaults := defaults;
     func_kwdefaults := kwdefaults;
     func_annotations :=
       if decide (annotations = ∅) then None else Some annotations |}.

(** The function once its [__annotations__] was read: the dictionary
    exists, empty when nothing is annotated. *)
Definition annotations_read (fn : PyFunctionObject) : PyFunctionObject :=
  {| func_name := func_name fn;
     func_code := func_code fn;
     func_defaults := func_defaults fn;
     func_kwdefaults := func_kwdefaults fn;
     func_annotations := Some (default ∅ (func_annotations fn)) |}.

(** The flags every plain function carries: [CO_OPTIMIZED | CO_NEWLOCALS]. *)
Definition plain : Z := 3.

(** [def f(a, b=2, *args, c, d=4, **kw): pass] *)
Definition f : PyFunctionObject :=
  def "f" ["a"; "b"; "c"; "d"; "args"; "kw"]%string
    (plain + CO_VARARGS + CO_VARKEYWORDS) 2 0 2
    [Py_Long 2] {[ "d"%string := Py_Long 4 ]} ∅.

(** [def first(x: int): pass] and [def second(flag: bool): pass] *)
Definition first : PyFunctionObject :=
  def "first" ["x"]%string plain 1 0 0 [] ∅ {[ "x"%string := PyLong_Type ]}.
Definition second : PyFunctionObject :=
  def "second" ["flag"]%string plain 1 0 0 [] ∅
    {[ "flag"%string := PyBool_Type ]}.

(** [def star( *rest: int ): pass] *)
Definition star : PyFunctionObject :=
  def "star" ["rest"]%string (plain + CO_VARARGS) 0 0 0 [] ∅
    {[ "rest"%string := PyLong_Type ]}.

(** [def only_pos(x: int, /): pass] *)
Definition only_pos : PyFunctionObject :=
  def "only_pos" ["x"]%string plain 1 1 0 [] ∅ {[ "x"%string := PyLong_Type ]}.

(** [def raw(data: bytes): pass] *)
Definition raw : PyFunctionObject :=
  def "raw" ["data"]%string plain 1 0 0 [] ∅
    {[ "data"%string := PyBytes_Type ]}.

(** [def pair(n: int, label: str): pass] *)
Definition pair : PyFunctionObject :=
  def "pair" ["n"; "label"]%string plain 2 0 0 [] ∅
    {[ "n"%string := PyLong_Type; "label"%string := PyUnicode_Type ]}.

(** [def scale(n: int, ratio: float): pass] *)
Definition scale : PyFunctionObject :=
  def "scale" ["n"; "ratio"]%string plain 2 0 0 [] ∅
    {[ "n"%string := PyLong_Type; "ratio"%string := PyFloat_Type ]}.

(** [def store(key: str, blob: bytes, ttl: int): pass] *)
Definition store : PyFunctionObject :=
  def "store" ["key"; "blob"; "ttl"]%string plain 3 0 0 [] ∅
    {[ "key"%string := PyUnicode_Type; "blob"%string := PyBytes_Type;
       "ttl"%string := PyLong_Type ]}.

(** [def keep(key: str, blob): pass], whose second parameter carries no
    annotation. *)
Definition keep : PyFunctionObject :=
  def "keep" ["key"; "blob"]%string plain 2 0 0 [] ∅
    {[ "key"%string := PyUnicode_Type ]}.

(** [def h(a: int = 5): pass] *)
Definition h : PyFunctionObject :=
  def "h" ["a"]%string plain 1 0 0 [Py_Long 5] ∅
    {[ "a"%string := PyLong_Type ]}.

(** [def g(a: int, **kw: int): x = 1], whose raw names end with the
    local [x]. *)
Definition g : PyFunctionObject :=
  def "g" ["a"; "kw"; "x"]%string (plain + CO_VARKEYWORDS) 1 0 0 [] ∅
    {[ "a"%string := PyLong_Type; "kw"%string := PyLong_Type ]}.

(** [def banner(): return "a" * 1025] *)
Definition banner : PyFunctionObject :=
  def "banner" [] plain 0 0 0 [] ∅ ∅.

(** A request whose parameters are the JSON object [named] or the JSON
    array [positional]; a getter yields a value when the member exists and
    has the requested type. *)
Definition as_bool (o : PyObject) : option bool :=
  match o with Py_Bool b => Some b | _ => None end.
Definition as_i64 (o : PyObject) : option Z :=
  match o with Py_Long n => Some n | _ => None end.
Definition as_f64 (o : PyObject) : option Z :=
  match o with Py_Float x => Some x | _ => None end.
Definition as_str (o : PyObject) : option string :=
  match o with Py_Unicode s => Some s | _ => None end.

Definition request (named : gmap string PyObject) (positional : list PyObject)
    : ujrpc_call_t :=
  {| ujrpc_param_named_bool := fun k => named !! k ≫= as_bool;
     ujrpc_param_named_i64 := fun k => named !! k ≫= as_i64;
     ujrpc_param_named_f64 := fun k => named !! k ≫= as_f64;
     ujrpc_param_named_str := fun k => named !! k ≫= as_str;
     ujrpc_param_positional_bool := fun i =>
       PyTuple_GetItem positional i ≫= as_bool;
     ujrpc_param_positional_i64 := fun i =>
       PyTuple_GetItem positional i ≫= as_i64;
     ujrpc_param_positional_f64 := fun i =>
       PyTuple_GetItem positional i ≫= as_f64;
     ujrpc_param_positional_str := fun i =>
       PyTuple_GetItem positional i ≫= as_str |}.

(** A runtime in which every call returns [result] and strings are
    serialised as their bytes between two quotes. *)
Definition quote : Byte.byte := Byte.x22.

Definition returning (result : PyObject) : py_runtime :=
  {| PyObject_CallObject := fun _ _ => Some result;
     to_string := fun response =>
       match response with
       | Some (Py_Unicode s) =>
         (0, quote :: String.list_byte_of_string s ++ [quote])
       | Some Py_None => (0, String.list_byte_of_string "null")
       | _ => (-1, [])
       end |}.

Definition letters (n : nat) : string :=
  String.string_of_list_ascii (replicate n (Ascii.ascii_of_nat 97)).

Definition server0 : py_server_t := server_init 8545 128 16.

End Samples.

(** ** Predicates of the properties *)

(** [filled st ps k]: the array holds the descriptors [ps] followed by [k]
    unwritten cells, and the cursor [param_i] stands after [ps]. *)
Definition filled (st : deduce_locals) (ps : list py_param_t) (k : nat) : Prop :=
  parameters st = (Some <$> ps) ++ replicate k None /\
  param_i st = length ps.

(** A loop body that stores exactly one descriptor per iteration. *)
Definition stores_one (body : Z -> deduce_locals -> outcome deduce_locals)
    : Prop :=
  forall i st st' ps k,
    filled st ps k -> body i st = Done st' ->
    exists param k', k = S k' /\ filled st' (ps ++ [param]) k'.

(** [1 if the flag is present], the count the variadic parameter adds. *)
Definition flag_present (flags mask : Z) : Z :=
  if bool_decide (Z.land flags mask ≠ 0) then 1 else 0.

(** A loop body that completes wherever its index names a raw parameter
    name and a cell is left, storing one descriptor. *)
Definition completes_within (bound : Z)
    (body : Z -> deduce_locals -> outcome deduce_locals) : Prop :=
  forall i st ps k,
    0 <= i < bound -> filled st ps (S k) ->
    exists st' param, body i st = Done st' /\ filled st' (ps ++ [param]) k.

(** The functions on which [deduce_parameters] completes: the
    annotation dictionary exists, the defaults are no more than the
    positional parameters, and every index the function reads in the raw
    names exists, the one of the variadic-keyword name being the one
    line 134 computes. *)
Definition readable (fn : PyFunctionObject) : Prop :=
  let code := func_code fn in
  is_Some (func_annotations fn) /\
  0 <= co_argcount code /\
  0 <= co_kwonlyargcount code /\
  Z.of_nat (length (func_defaults fn)) <= co_argcount code /\
  co_argcount code + co_kwonlyargcount code
  + flag_present (co_flags code) CO_VARARGS
  <= Z.of_nat (length (co_varnames code)) /\
  (Z.land (co_flags code) CO_VARKEYWORDS ≠ 0 ->
   co_argcount code + co_kwonlyargcount code + 1
   < Z.of_nat (length (co_varnames code))).

(** What the iteration on one descriptor leaves in its cell of [args]. *)
Definition cell_after (stored : option tuple_item) (before : tuple_item)
    : tuple_item :=
  match stored with Some o => o | None => before end.

(** A registration completes on every object that is not callable (it is
    refused) and on every function [deduce_parameters] completes on; it
    does not on a callable that is not a function. *)
Definition registrable (o : py_object) : Prop :=
  match o with
  | py_function fn => readable fn
  | py_builtin _ => False
  | py_value _ => True
  end.

(** ** The signature, read off the function object *)

(** The descriptor of the positional parameter at index [i] of the raw
    names: positional-only below [co_posonlyargcount], and with the
    default that the tuple of defaults, aligned on the last positional
    parameter, holds for it. *)
Definition positional_descriptor (fn : PyFunctionObject) (i : Z)
    (param : string) : py_param_t :=
  let code := func_code fn in
  let first_default :=
    co_argcount code - Z.of_nat (length (func_defaults fn)) in
  {| name := param;
     value := if i <? first_default then None
              else PyTuple_GetItem (func_defaults fn) (i - first_default);
     type := annotation fn param;
     kind := if i <? co_posonlyargcount code
             then POSITIONAL_ONLY else POSITIONAL_OR_KEYWORD |}.

Definition keyword_only_descriptor (fn : PyFunctionObject) (param : string)
    : py_param_t :=
  {| name := param;
     value := func_kwdefaults fn !! param;
     type := annotation fn param;
     kind := KEYWORD_ONLY |}.

Definition variadic_descriptor (fn : PyFunctionObject) (k : py_param_kind_t)
    (param : string) : py_param_t :=
  {| name := param;
     value := None;
     type := annotation fn param;
     kind := k |}.

(** The descriptors of a function, in the order of the array: the
    positional parameters, the variadic-positional one, the keyword-only
    ones, the variadic-keyword one.  The two variadic names are taken
    where [deduce_parameters] reads them. *)
Definition signature_of (fn : PyFunctionObject) : list py_param_t :=
  let code := func_code fn in
  let names := co_varnames code in
  let pos := co_argcount code in
  let kw := co_kwonlyargcount code in
  imap (fun j => positional_descriptor fn (Z.of_nat j))
       (take (Z.to_nat pos) names)
  ++ (if bool_decide (Z.land (co_flags code) CO_VARARGS ≠ 0)
      then option_list (variadic_descriptor fn VAR_POSITIONAL
                          <$> names !! Z.to_nat (pos + kw))
      else [])
  ++ (keyword_only_descriptor fn
        <$> take (Z.to_nat kw) (drop (Z.to_nat pos) names))
  ++ (if bool_decide (Z.land (co_flags code) CO_VARKEYWORDS ≠ 0)
      then option_list (variadic_descriptor fn VAR_KEYWORD
                          <$> names !! Z.to_nat (pos + kw + 1))
      else []).

(** A loop body that, at every index of [lo, hi) and under the invariant
    [I] on the locals, reads the raw name at its index and stores the
    descriptor [D] gives for it. *)
Definition stores_descriptor (fn : PyFunctionObject)
    (I : Z -> deduce_locals -> Prop) (lo hi : Z)
    (body : Z -> deduce_locals -> outcome deduce_locals)
    (D : Z -> string -> py_param_t) : Prop :=
  forall i st st' ps k,
    lo <= i < hi -> filled st ps k -> I i st -> body i st = Done st' ->
    exists param k',
      co_varnames (func_code fn) !! Z.to_nat i = Some param /\
      k = S k' /\ filled st' (ps ++ [D i param]) k' /\ I (i + 1) st'.

(** A step that either completes, storing one descriptor, or stops on a
    null dereference: it never stores outside the array. *)
Definition stores_or_null
    (body : Z -> deduce_locals -> outcome deduce_locals) : Prop :=
  forall i st ps k,
    filled st ps (S k) ->
    (exists st' param, body i st = Done st' /\ filled st' (ps ++ [param]) k)
    \/ body i st = Crash null_dereference.

(** The kinds of a list of descriptors never decrease along the list, in
    the order of the enumeration. *)
Definition kinds_ordered (ps : list py_param_t) : Prop :=
  forall (i j : nat) p q,
    (i <= j)%nat -> ps !! i = Some p -> ps !! j = Some q ->
    enum_value (kind p) <= enum_value (kind q).

(** All kinds of a list lie between two enumerators. *)
Definition kinds_within (lo hi : Z) (ps : list py_param_t) : Prop :=
  forall p, p ∈ ps -> lo <= enum_value (kind p) <= hi.

(** The binding with the default of every descriptor erased. *)
Definition without_default (p : py_param_t) : py_param_t :=
  {| name := name p; value := None; type := type p; kind := kind p |}.

Definition without_defaults (wrap : py_wrapper_t) : py_wrapper_t :=
  {| u_params := option_map without_default <$> u_params wrap;
     params_cnt := params_cnt wrap;
     callable := callable wrap |}.

(** The binding [deduce_parameters] left, with another callable. *)
Definition bound_to (c : option PyFunctionObject) (wrap : py_wrapper_t)
    : py_wrapper_t :=
  {| u_params := u_params wrap;
     params_cnt := params_cnt wrap;
     callable := c |}.

(** ** server_run *)

(** What [server_run] uses and python.c does not define, over a state [W]
    of the world outside the interpreter (the engine with its
    connections, the clock): the parser of the two arguments of the
    format ["nd"], [time], [difftime], the subtraction and the sign test
    of [double] (a [double] is kept as its 64-bit pattern), and
    [ujrpc_take_call(server, thread_cnt)], which may run [wrapper] and so
    may crash. *)
Record run_env (W : Type) : Type := {
  PyArg_ParseTuple_nd : list py_object -> option (Z * Z);
  time : W -> Z;
  difftime : Z -> Z -> Z;
  double_sub : Z -> Z -> Z;
  double_is_positive : Z -> bool;
  take_call : gmap string ujrpc_callback_t -> Z -> W -> outcome W
}.

Arguments PyArg_ParseTuple_nd {W} _ _.
Arguments time {W} _ _.
Arguments difftime {W} _ _ _.
Arguments double_sub {W} _ _ _.
Arguments double_is_positive {W} _ _.
Arguments take_call {W} _ _ _ _.

(** The loop [while (max_cycles > 0 && max_seconds > 0)] of [server_run];
    [fuel] bounds its iterations, and [Z.to_nat max_cycles] is enough
    since every iteration decrements [max_cycles]. *)
Fixpoint server_run_loop {W : Type} (env : run_env W) (self : py_server_t)
    (fuel : nat) (max_cycles max_seconds start : Z) (world : W) : outcome W :=
  match fuel with
  | O => Done world
  | S fuel =>
    if (0 <? max_cycles) && double_is_positive env max_seconds then
      world ← take_call env (server self) (thread_cnt self) world;
      let max_cycles := max_cycles - 1 in
      let end_time := time env world in
      let max_seconds :=
        double_sub env max_seconds (difftime env end_time start) in
      server_run_loop env self fuel max_cycles max_seconds end_time world
    else Done world
  end.

Definition server_run {W : Type} (env : run_env W) (self : py_server_t)
    (args : list py_object) (world : W) : outcome (py_return * W) :=
  match PyArg_ParseTuple_nd env args with
  | None =>
    Done (raised_TypeError "Expecting a cycle count and timeout.", world)
  | Some (max_cycles, max_seconds) =>
    let start := time env world in
    world ← server_run_loop env self (Z.to_nat max_cycles)
              max_cycles max_seconds start world;
    Done (returned Py_None, world)
  end.

(** [n] calls of [ujrpc_take_call], one after the other. *)
Fixpoint take_calls {W : Type} (env : run_env W) (self : py_server_t)
    (n : nat) (world : W) : outcome W :=
  match n with
  | O => Done world
  | S n =>
    world ← take_call env (server self) (thread_cnt self) world;
    take_calls env self n world
  end.

(** The seconds left, as the loop of [server_run] updates them from
    [max_seconds], pass the sign test before each of the [n] calls taken
    from [world], one after the other, as long as no call crashes. *)
Fixpoint seconds_last {W : Type} (env : run_env W) (self : py_server_t)
    (n : nat) (max_seconds start : Z) (world : W) : bool :=
  match n with
  | O => true
  | S n =>
    double_is_positive env max_seconds &&
    match take_call env (server self) (thread_cnt self) world with
    | Done world =>
      let end_time := time env world in
      seconds_last env self n
        (double_sub env max_seconds (difftime env end_time start))
        end_time world
    | Crash _ => true
    end
  end.

(** A world that is the number of seconds elapsed, in which every call
    taken lasts one second and a [double] is a whole number of seconds. *)
Definition one_second_per_call : run_env Z :=
  {| PyArg_ParseTuple_nd := fun args =>
       match args with
       | [py_value (Py_Long cycles); py_value (Py_Float seconds)] =>
         Some (cycles, seconds)
       | _ => None
       end;
     time := fun now => now;
     difftime := fun finish start => finish - start;
     double_sub := fun x y => x - y;
     double_is_positive := fun x => 0 <? x;
     take_call := fun _ _ now => Done (now + 1) |}.

(** * Properties *)

(** ** The error monad *)

Lemma bind_Done {A B : Type} (m : outcome A) (k : A -> outcome B) (b : B) :
  m ≫= k = Done b -> exists a, m = Done a /\ k a = Done b.
Proof.
  destruct m as [a|why]; simpl; [eauto | discriminate].
Qed.

Lemma for_steps_succ {S : Type} (n : nat) (i : Z)
    (body : Z -> S -> outcome S) (s : S) :
  for_steps (Datatypes.S n) i body s = body i s ≫= for_steps n (i + 1) body.
Proof. reflexivity. Qed.

(** Undo one bind of a hypothesis that ends in [Done]. *)
Ltac unbind H :=
  let a := fresh "a" in
  let Ha := fresh "H" a in
  apply bind_Done in H as (a & Ha & H).

(** ** deduce_parameters: the array and its cursor *)

Lemma store_param_filled param st st' ps k :
  filled st ps k ->
  store_param param st = Done st' ->
  exists k', k = S k' /\ filled st' (ps ++ [param]) k' /\
             posonly_left st' = posonly_left st.
Proof.
  intros [Hcells Hcursor]. unfold store_param.
  case_decide as Hlt; [|discriminate].
  intros [= <-]. rewrite Hcells, Hcursor in *.
  rewrite length_app, length_fmap, length_replicate in Hlt.
  destruct k as [|k']; [lia|]. exists k'. split; [done|].
  split; [|done]. split; simpl.
  - replace (length ps) with (length (Some <$> ps) + 0)%nat
      by (rewrite length_fmap; lia).
    rewrite insert_app_r. simpl.
    rewrite fmap_app. simpl. by rewrite <- app_assoc.
  - rewrite length_app. simpl. lia.
Qed.

Lemma positional_kind_filled st ps k :
  filled st ps k -> filled (positional_kind st).2 ps k.
Proof. by intros [? ?]. Qed.

Lemma for_steps_filled body n :
  stores_one body ->
  forall i st st' ps k,
    filled st ps k -> for_steps n i body st = Done st' ->
    exists qs k', length qs = n /\ k = (n + k')%nat /\
                  filled st' (ps ++ qs) k'.
Proof.
  intros Hbody. induction n as [|n IH]; intros i st st' ps k Hst Hrun.
  - injection Hrun as <-. exists [], k. by rewrite app_nil_r.
  - rewrite for_steps_succ in Hrun. unbind Hrun.
    destruct (Hbody _ _ _ _ _ Hst Ha) as (param & k1 & -> & Hst1).
    destruct (IH _ _ _ _ _ Hst1 Hrun) as (qs & k' & Hlen & -> & Hst').
    exists (param :: qs), k'. simpl. rewrite Hlen.
    split; [done|]. split; [lia|]. by rewrite <- app_assoc in Hst'.
Qed.

Lemma non_default_body_stores_one fn : stores_one (non_default_body fn).
Proof.
  intros i st st' ps k Hst Hrun. unfold non_default_body in Hrun.
  unbind Hrun. destruct (positional_kind st) as [kd st1] eqn:Hk.
  apply positional_kind_filled in Hst. rewrite Hk in Hst.
  destruct (store_param_filled _ _ _ _ _ Hst Hrun) as (k' & -> & ? & _).
  eauto.
Qed.

Lemma default_body_stores_one fn ndc : stores_one (default_body fn ndc).
Proof.
  intros i st st' ps k Hst Hrun. unfold default_body in Hrun.
  unbind Hrun. destruct (positional_kind st) as [kd st1] eqn:Hk.
  apply positional_kind_filled in Hst. rewrite Hk in Hst.
  destruct (store_param_filled _ _ _ _ _ Hst Hrun) as (k' & -> & ? & _).
  eauto.
Qed.

Lemma keyword_only_body_stores_one fn : stores_one (keyword_only_body fn).
Proof.
  intros i st st' ps k Hst Hrun. unfold keyword_only_body in Hrun.
  do 2 unbind Hrun.
  destruct (store_param_filled _ _ _ _ _ Hst Hrun) as (k' & -> & ? & _).
  eauto.
Qed.

Lemma var_positional_block_stores_one fn pos kw :
  stores_one (fun _ => var_positional_block fn pos kw).
Proof.
  intros i st st' ps k Hst Hrun. unfold var_positional_block in Hrun.
  unbind Hrun.
  destruct (store_param_filled _ _ _ _ _ Hst Hrun) as (k' & -> & ? & _).
  eauto.
Qed.

Lemma var_keyword_block_stores_one fn flags pos kw :
  stores_one (fun _ => var_keyword_block fn flags pos kw).
Proof.
  intros i st st' ps k Hst Hrun. unfold var_keyword_block in Hrun.
  unbind Hrun.
  destruct (store_param_filled _ _ _ _ _ Hst Hrun) as (k' & -> & ? & _).
  eauto.
Qed.

(** A loop that starts below index 0 stops at its first name lookup. *)
Lemma default_body_negative fn ndc i st :
  i < 0 -> default_body fn ndc i st = Crash null_dereference.
Proof.
  intros Hi. unfold default_body, PyTuple_GetItem.
  destruct (Z.ltb_spec i 0); [|lia].
  by destruct (func_annotations fn).
Qed.

Lemma written_params_filled ps k c n :
  written_params {| u_params := (Some <$> ps) ++ replicate k None;
                    params_cnt := n; callable := c |} = ps.
Proof.
  unfold written_params; simpl. rewrite omap_app.
  assert (omap id (replicate k (@None py_param_t)) = []) as ->
    by (induction k; simpl; auto).
  rewrite app_nil_r. induction ps as [|p ps IH]; [done|].
  rewrite fmap_cons. csimpl. by rewrite IH.
Qed.

Lemma deduce_fill_filled fn st :
  0 <= co_argcount (func_code fn) ->
  0 <= co_kwonlyargcount (func_code fn) ->
  deduce_fill fn = Done st ->
  exists ps k,
    filled st ps k /\
    (length ps + k)%nat = Z.to_nat (total_params fn) /\
    Z.of_nat (length ps) =
      co_argcount (func_code fn)
      + flag_present (co_flags (func_code fn)) CO_VARARGS
      + co_kwonlyargcount (func_code fn)
      + flag_present (co_flags (func_code fn)) CO_VARKEYWORDS.
Proof.
  intros Hpos Hkw Hrun. unfold deduce_fill in Hrun.
  set (code := func_code fn) in *.
  set (ndc := co_argcount code - Z.of_nat (length (func_defaults fn))) in *.
  set (K := Z.to_nat (total_params fn)) in *.
  assert (filled {| parameters := replicate K None; param_i := 0;
                    posonly_left := co_posonlyargcount code |} [] K) as H0
    by (split; reflexivity).
  unbind Hrun. rename a into st1.
  destruct (for_steps_filled _ _ (non_default_body_stores_one fn)
              _ _ _ _ _ H0 Ha) as (q1 & k1 & Hq1 & HK1 & H1).
  unbind Hrun. rename a into st2.
  destruct (for_steps_filled _ _ (default_body_stores_one fn ndc)
              _ _ _ _ _ H1 Ha0) as (q2 & k2 & Hq2 & HK2 & H2).
  assert (0 <= ndc) as Hndc.
  { destruct (Z.le_gt_cases 0 ndc) as [|Hneg]; [done|exfalso].
    unfold for_range in Ha0.
    destruct (Z.to_nat (co_argcount code - ndc)) as [|n] eqn:Hn; [lia|].
    rewrite for_steps_succ, default_body_negative in Ha0 by lia.
    discriminate. }
  unbind Hrun. rename a into st3.
  unfold flag_present.
  remember (bool_decide (Z.land (co_flags code) CO_VARARGS ≠ 0)) as va.
  remember (bool_decide (Z.land (co_flags code) CO_VARKEYWORDS ≠ 0)) as vk.
  assert (exists q3 k3,
            filled st3 (([] ++ q1) ++ q2 ++ q3) k3 /\ k2 = (length q3 + k3)%nat /\
            Z.of_nat (length q3) = (if va then 1 else 0))
    as (q3 & k3 & H3 & HK3 & Hq3)
    by (destruct va; first
      [ destruct (var_positional_block_stores_one fn _ _ 0 _ _ _ _ H2 Ha1)
          as (p & k3 & -> & H);
        exists [p], k3; by rewrite <- app_assoc in H
      | injection Ha1 as <-; exists [], k2; by rewrite app_nil_r ]).
  unbind Hrun; rename a into st4.
  destruct (for_steps_filled _ _ (keyword_only_body_stores_one fn)
              _ _ _ _ _ H3 Ha2) as (q4 & k4 & Hq4 & HK4 & H4).
  assert (exists q5 k5,
            filled st ((([] ++ q1) ++ q2 ++ q3) ++ q4 ++ q5) k5 /\
            k4 = (length q5 + k5)%nat /\
            Z.of_nat (length q5) = (if vk then 1 else 0))
    as (q5 & k5 & H5 & HK5 & Hq5)
    by (destruct vk; first
      [ destruct (var_keyword_block_stores_one fn _ _ _ 0 _ _ _ _ H4 Hrun)
          as (p & k5 & -> & H);
        exists [p], k5; by rewrite <- app_assoc in H
      | injection Hrun as <-; exists [], k4; by rewrite app_nil_r ]).
  eexists _, k5. split; [exact H5|].
  rewrite !length_app. simpl. split; lia.
Qed.

(** What [deduce_parameters] leaves in [wrap]: the count is the sum of
    line 88, in which each flag contributes its mask; the descriptors
    written are one per positional and keyword-only parameter and one per
    flag. *)
Lemma deduce_parameters_wrap fn wrap wrap' :
  0 <= co_argcount (func_code fn) ->
  0 <= co_kwonlyargcount (func_code fn) ->
  deduce_parameters fn wrap = Done wrap' ->
  params_cnt wrap' = total_params fn /\
  callable wrap' = callable wrap /\
  length (u_params wrap') = Z.to_nat (total_params fn) /\
  Z.of_nat (length (written_params wrap')) =
    co_argcount (func_code fn)
    + flag_present (co_flags (func_code fn)) CO_VARARGS
    + co_kwonlyargcount (func_code fn)
    + flag_present (co_flags (func_code fn)) CO_VARKEYWORDS.
Proof.
  intros Hpos Hkw Hrun. unfold deduce_parameters in Hrun. unbind Hrun.
  injection Hrun as <-. simpl.
  destruct (deduce_fill_filled _ _ Hpos Hkw Ha) as (ps & k & [Hc _] & HK & Hn).
  repeat split; [|].
  - rewrite Hc, length_app, length_fmap, length_replicate. lia.
  - rewrite Hc, written_params_filled. exact Hn.
Qed.

(** A mask of one bit leaves either nothing or the mask. *)
Lemma land_bit flags n :
  0 <= n -> Z.land flags (2 ^ n) = if Z.testbit flags n then 2 ^ n else 0.
Proof.
  intros Hn. apply Z.bits_inj'. intros m Hm.
  rewrite Z.land_spec, Z.pow2_bits_eqb by done.
  destruct (Z.eqb_spec n m) as [<-|Hne].
  - destruct (Z.testbit flags n) eqn:Hb; simpl.
    + by rewrite Z.pow2_bits_true.
    + by rewrite Z.bits_0.
  - rewrite andb_false_r.
    destruct (Z.testbit flags n); [|by rewrite Z.bits_0].
    by rewrite Z.pow2_bits_false.
Qed.

Lemma land_CO_VARARGS flags :
  Z.land flags CO_VARARGS = 4 * flag_present flags CO_VARARGS.
Proof.
  unfold flag_present. change CO_VARARGS with (2 ^ 2).
  rewrite land_bit by lia.
  destruct (Z.testbit flags 2); case_bool_decide; lia.
Qed.

Lemma land_CO_VARKEYWORDS flags :
  Z.land flags CO_VARKEYWORDS = 8 * flag_present flags CO_VARKEYWORDS.
Proof.
  unfold flag_present. change CO_VARKEYWORDS with (2 ^ 3).
  rewrite land_bit by lia.
  destruct (Z.testbit flags 3); case_bool_decide; lia.
Qed.

(** The recorded count exceeds the descriptors written by 3 for a
    variadic-positional and by 7 for a variadic-keyword parameter. *)
Lemma deduce_parameters_excess fn wrap wrap' :
  0 <= co_argcount (func_code fn) ->
  0 <= co_kwonlyargcount (func_code fn) ->
  deduce_parameters fn wrap = Done wrap' ->
  params_cnt wrap' =
    Z.of_nat (length (written_params wrap'))
    + 3 * flag_present (co_flags (func_code fn)) CO_VARARGS
    + 7 * flag_present (co_flags (func_code fn)) CO_VARKEYWORDS.
Proof.
  intros Hpos Hkw Hrun.
  destruct (deduce_parameters_wrap _ _ _ Hpos Hkw Hrun) as (-> & _ & _ & ->).
  unfold total_params.
  rewrite land_CO_VARARGS, land_CO_VARKEYWORDS. lia.
Qed.

(** The name of the variadic-keyword descriptor is read one slot after
    the keyword-only names, whether or not [CO_VARARGS] is set: the
    offset [co_flags && CO_VARARGS] is 1 as soon as [co_flags] is not 0. *)
Lemma logical_and_flags flags :
  Z.land flags CO_VARKEYWORDS ≠ 0 -> logical_and flags CO_VARARGS = 1.
Proof.
  intros Hvk. unfold logical_and.
  assert (flags ≠ 0) by (intros ->; by rewrite Z.land_0_l in Hvk).
  by rewrite !bool_decide_eq_true_2.
Qed.

(** ** deduce_parameters completes where its indices exist *)

Lemma store_param_completes param st ps k :
  filled st ps (S k) ->
  exists st', store_param param st = Done st' /\ filled st' (ps ++ [param]) k.
Proof.
  intros Hst. destruct (store_param param st) as [st'|why] eqn:Hrun.
  - destruct (store_param_filled _ _ _ _ _ Hst Hrun) as (k' & [= <-] & ? & _).
    eauto.
  - exfalso. destruct Hst as [Hcells Hcursor]. unfold store_param in Hrun.
    case_decide as Hlt; [discriminate|]. apply Hlt.
    rewrite Hcells, Hcursor, length_app, length_fmap, length_replicate. lia.
Qed.

Lemma PyTuple_GetItem_within {A : Type} (t : list A) (i : Z) :
  0 <= i < Z.of_nat (length t) -> is_Some (PyTuple_GetItem t i).
Proof.
  intros Hi. unfold PyTuple_GetItem.
  destruct (Z.ltb_spec i 0); [lia|]. apply lookup_lt_is_Some. lia.
Qed.

Lemma for_steps_completes bound body n :
  completes_within bound body ->
  forall i st ps k,
    0 <= i -> i + Z.of_nat n <= bound -> filled st ps (n + k) ->
    exists st' qs, for_steps n i body st = Done st' /\
                   length qs = n /\ filled st' (ps ++ qs) k.
Proof.
  intros Hbody. induction n as [|n IH]; intros i st ps k Hi Hn Hst.
  - exists st, []. by rewrite app_nil_r.
  - destruct (Hbody i st ps (n + k)%nat ltac:(lia) Hst)
      as (st1 & param & Hrun1 & Hst1).
    destruct (IH (i + 1) st1 _ k ltac:(lia) ltac:(lia) Hst1)
      as (st' & qs & Hrun & Hlen & Hst').
    exists st', (param :: qs). rewrite for_steps_succ, Hrun1. simpl.
    split; [done|]. split; [by rewrite Hlen|]. by rewrite <- app_assoc in Hst'.
Qed.

(** Close a goal [exists st' param, store_param q s = Done st' /\ _] from
    the room left in the array. *)
Ltac store_completes Hst :=
  match goal with
  | |- exists st' param, store_param ?q ?s = Done st' /\ _ =>
    let st' := fresh "st'" in
    destruct (store_param_completes q s _ _ Hst) as (st' & ? & ?);
    exists st', q; split; assumption
  end.

Section completes.
Variable fn : PyFunctionObject.
Hypothesis annotated : is_Some (func_annotations fn).

Let names := Z.of_nat (length (co_varnames (func_code fn))).

Lemma non_default_body_completes :
  completes_within names (non_default_body fn).
Proof.
  intros i st ps k Hi Hst. unfold non_default_body.
  pose proof annotated as [ann Hann]. rewrite Hann.
  destruct (PyTuple_GetItem_within (co_varnames (func_code fn)) i Hi)
    as [param ->]. simpl.
  apply positional_kind_filled in Hst. unfold positional_kind in Hst.
  simpl in Hst.
  store_completes Hst.
Qed.

Lemma default_body_completes ndc :
  completes_within names (default_body fn ndc).
Proof.
  intros i st ps k Hi Hst. unfold default_body.
  pose proof annotated as [ann Hann]. rewrite Hann.
  destruct (PyTuple_GetItem_within (co_varnames (func_code fn)) i Hi)
    as [param ->]. simpl.
  apply positional_kind_filled in Hst. unfold positional_kind in Hst.
  simpl in Hst.
  store_completes Hst.
Qed.

Lemma keyword_only_body_completes :
  completes_within names (keyword_only_body fn).
Proof.
  intros i st ps k Hi Hst. unfold keyword_only_body.
  pose proof annotated as [ann Hann]. rewrite Hann.
  destruct (PyTuple_GetItem_within (co_varnames (func_code fn)) i Hi)
    as [param ->]. simpl.
  store_completes Hst.
Qed.

Lemma var_positional_block_completes pos :
  completes_within names
    (fun i => var_positional_block fn pos (i - pos)).
Proof.
  intros i st ps k Hi Hst. unfold var_positional_block.
  replace (pos + (i - pos)) with i by lia.
  pose proof annotated as [ann Hann]. rewrite Hann.
  destruct (PyTuple_GetItem_within (co_varnames (func_code fn)) i Hi)
    as [param ->]. simpl.
  store_completes Hst.
Qed.

Lemma var_keyword_block_completes flags pos kw st ps k :
  0 <= pos + kw + logical_and flags CO_VARARGS < names ->
  filled st ps (S k) ->
  exists st' param,
    var_keyword_block fn flags pos kw st = Done st' /\
    filled st' (ps ++ [param]) k.
Proof.
  intros Hi Hst. unfold var_keyword_block.
  pose proof annotated as [ann Hann]. rewrite Hann.
  destruct (PyTuple_GetItem_within (co_varnames (func_code fn)) _ Hi)
    as [param ->]. simpl.
  store_completes Hst.
Qed.

End completes.

Lemma deduce_parameters_completes fn wrap :
  readable fn -> exists wrap', deduce_parameters fn wrap = Done wrap'.
Proof.
  intros (Hann & Hpos & Hkw & Hdef & Hnames & Hvk).
  unfold deduce_parameters, deduce_fill.
  set (code := func_code fn) in *.
  set (ndc := co_argcount code - Z.of_nat (length (func_defaults fn))) in *.
  set (names := Z.of_nat (length (co_varnames code))) in *.
  pose proof (land_CO_VARARGS (co_flags code)) as Hva4.
  pose proof (land_CO_VARKEYWORDS (co_flags code)) as Hvk8.
  assert (0 <= flag_present (co_flags code) CO_VARARGS <= 1) as Hva01
    by (unfold flag_present; case_bool_decide; lia).
  assert (0 <= flag_present (co_flags code) CO_VARKEYWORDS <= 1) as Hvk01
    by (unfold flag_present; case_bool_decide; lia).
  set (n1 := Z.to_nat (ndc - 0)).
  set (n2 := Z.to_nat (co_argcount code - ndc)).
  set (n4 := Z.to_nat (co_argcount code + co_kwonlyargcount code
                       - co_argcount code)).
  set (va := Z.to_nat (flag_present (co_flags code) CO_VARARGS)).
  set (vk := Z.to_nat (flag_present (co_flags code) CO_VARKEYWORDS)).
  assert (exists k, Z.to_nat (total_params fn)
                    = (n1 + (n2 + (va + (n4 + (vk + k)))))%nat) as [k HK].
  { exists (Z.to_nat (3 * flag_present (co_flags code) CO_VARARGS
                      + 7 * flag_present (co_flags code) CO_VARKEYWORDS)).
    unfold total_params. fold code. lia. }
  rewrite HK. unfold for_range. fold n1 n2 n4.
  destruct (for_steps_completes names _ n1 (non_default_body_completes fn Hann)
              0 {| parameters := replicate (n1 + (n2 + (va + (n4 + (vk + k))))) None;
                   param_i := 0;
                   posonly_left := co_posonlyargcount code |} [] _
              ltac:(lia) ltac:(lia) ltac:(by split))
    as (st1 & q1 & -> & _ & H1). simpl.
  destruct (for_steps_completes names _ n2 (default_body_completes fn Hann ndc)
              ndc st1 _ _ ltac:(lia) ltac:(lia) H1)
    as (st2 & q2 & -> & _ & H2). simpl.
  assert (exists st3 q3,
    (if bool_decide (Z.land (co_flags code) CO_VARARGS ≠ 0)
     then var_positional_block fn (co_argcount code) (co_kwonlyargcount code) st2
     else Done st2) = Done st3 /\ filled st3 (([] ++ q1) ++ q2 ++ q3) (n4 + (vk + k)))
    as (st3 & q3 & -> & H3).
  { subst va. unfold flag_present in *. case_bool_decide.
    - destruct (var_positional_block_completes fn Hann (co_argcount code)
                  (co_argcount code + co_kwonlyargcount code) st2 _ _
                  ltac:(fold code names; lia) H2) as (st3 & p & Hrun & H3).
      replace (co_argcount code + co_kwonlyargcount code - co_argcount code)
        with (co_kwonlyargcount code) in Hrun by lia.
      exists st3, [p]. by rewrite <- app_assoc in H3.
    - exists st2, []. by rewrite app_nil_r. }
  simpl.
  destruct (for_steps_completes names _ n4 (keyword_only_body_completes fn Hann)
              (co_argcount code) st3 _ _ ltac:(lia) ltac:(lia) H3)
    as (st4 & q4 & -> & _ & H4). simpl.
  assert (exists st5,
    (if bool_decide (Z.land (co_flags code) CO_VARKEYWORDS ≠ 0)
     then var_keyword_block fn (co_flags code) (co_argcount code)
            (co_kwonlyargcount code) st4
     else Done st4) = Done st5) as (st5 & ->).
  { subst vk. unfold flag_present in *. case_bool_decide as Hb.
    - assert (0 <= co_argcount code + co_kwonlyargcount code
                   + logical_and (co_flags code) CO_VARARGS < names) as Hidx
        by (rewrite logical_and_flags by done; specialize (Hvk Hb); lia).
      destruct (var_keyword_block_completes fn Hann (co_flags code)
                  (co_argcount code) (co_kwonlyargcount code) st4 _ k Hidx H4)
        as (st5 & p & Hrun & _).
      eauto.
    - eauto. }
  simpl. eauto.
Qed.

(** ** wrapper: the loop, iteration by iteration *)

Lemma wrapper_body_Done wrap call i st st' :
  wrapper_body wrap call i st = Done st' ->
  exists p made stored,
    u_params wrap !! Z.to_nat i = Some (Some p) /\
    marshal_param call i p = Done (made, stored) /\
    args st' = match stored with
               | Some o => <[Z.to_nat i := o]> (args st)
               | None => args st
               end /\
    accesses st' = accesses st ++ made.
Proof.
  unfold wrapper_body, read_param. intros Hrun. unbind Hrun.
  destruct (u_params wrap !! Z.to_nat i) as [[p|]|]; try discriminate.
  injection Ha as <-. unbind Hrun. destruct a as [made stored].
  injection Hrun as <-. exists p, made, stored. auto.
Qed.

Lemma wrapper_body_cells wrap call i st st' :
  wrapper_body wrap call i st = Done st' ->
  length (args st') = length (args st) /\
  forall j : nat, j ≠ Z.to_nat i -> args st' !! j = args st !! j.
Proof.
  intros Hrun.
  destruct (wrapper_body_Done _ _ _ _ _ Hrun) as (p & made & [o|] & _ & _ & -> & _).
  - split; [apply length_insert|].
    intros j Hj. by apply list_lookup_insert_ne.
  - done.
Qed.

Lemma wrapper_loop wrap call n :
  forall i st st',
    0 <= i ->
    for_steps n i (wrapper_body wrap call) st = Done st' ->
    length (args st') = length (args st) /\
    (forall j : nat, (j < Z.to_nat i \/ Z.to_nat i + n <= j)%nat ->
                     args st' !! j = args st !! j) /\
    exists steps : list (list ujrpc_access * option tuple_item),
      length steps = n /\
      accesses st' = accesses st ++ concat (steps.*1) /\
      forall (k : nat) made stored before,
        steps !! k = Some (made, stored) ->
        args st !! (Z.to_nat i + k)%nat = Some before ->
        (exists p, u_params wrap !! (Z.to_nat i + k)%nat = Some (Some p) /\
                   marshal_param call (i + Z.of_nat k) p = Done (made, stored)) /\
        args st' !! (Z.to_nat i + k)%nat = Some (cell_after stored before).
Proof.
  induction n as [|n IH]; intros i st st' Hi Hrun.
  - injection Hrun as <-. split; [done|]. split; [done|].
    exists []. split; [done|]. split; [by rewrite app_nil_r|].
    intros k ? ? ? Hk. by rewrite lookup_nil in Hk.
  - rewrite for_steps_succ in Hrun. unbind Hrun. rename a into st1.
    destruct (wrapper_body_cells _ _ _ _ _ Ha) as [Hlen1 Hframe1].
    destruct (wrapper_body_Done _ _ _ _ _ Ha)
      as (p & made & stored & Hp & Hm & Hargs1 & Hacc1).
    destruct (IH (i + 1) st1 st' ltac:(lia) Hrun)
      as (Hlen & Hframe & steps & Hsteps & Hacc & Hcells).
    assert (Z.to_nat (i + 1) = S (Z.to_nat i)) as Hsucc by lia.
    rewrite Hsucc in *.
    split; [congruence|]. split.
    { intros j Hj. rewrite Hframe by lia. apply Hframe1. lia. }
    exists ((made, stored) :: steps). split; [simpl; lia|]. split.
    { rewrite Hacc, Hacc1. simpl. by rewrite <- app_assoc. }

    intros [|k] made' stored' before Hk Hbefore; simpl in Hk.
    + injection Hk as <- <-. rewrite Nat.add_0_r in *. rewrite Z.add_0_r.
      split; [eauto|]. rewrite Hframe by lia. rewrite Hargs1.
      destruct stored as [o|]; simpl; [|done].
      apply list_lookup_insert_eq. by eapply lookup_lt_Some.
    + replace (Z.to_nat i + S k)%nat with (S (Z.to_nat i) + k)%nat in * by lia.
      replace (i + Z.of_nat (S k)) with (i + 1 + Z.of_nat k) by lia.
      apply Hcells; [done|]. rewrite Hframe1 by lia. done.
Qed.

(** The run of [wrapper], descriptor by descriptor: every cell of the
    array within the recorded count is a written descriptor, the getter
    calls are those of the descriptors in array order, the tuple holds at
    each index what the descriptor of that index stored, no cell of it is
    left [NULL], and the callable invoked is [wrap.callable], with that
    tuple. *)
Lemma wrapper_Done rt wrap call run :
  wrapper rt wrap call = Done run ->
  exists steps : list (list ujrpc_access * option tuple_item),
    length steps = Z.to_nat (params_cnt wrap) /\
    run_accesses run = concat (steps.*1) /\
    run_args run = (fun s => cell_after s.2 item_NULL) <$> steps /\
    (forall (k : nat) made stored,
       steps !! k = Some (made, stored) ->
       exists p, u_params wrap !! k = Some (Some p) /\
                 marshal_param call (Z.of_nat k) p = Done (made, stored)) /\
    callable wrap = Some (run_callable run) /\
    reply_capacity run = max_response_length /\
    reply_content run =
      (to_string rt (PyObject_CallObject rt (run_callable run) (run_args run))).2 /\
    Z.of_nat (length (reply_content run)) <= max_response_length /\
    item_NULL ∉ run_args run.
Proof.
  unfold wrapper, write_buffer, for_range. intros Hrun. unbind Hrun.
  rename a into st.
  destruct (callable wrap) as [fn|]; [|discriminate].
  case_bool_decide as Hnull; [discriminate|].
  destruct (to_string rt (PyObject_CallObject rt fn (args st)))
    as [res content] eqn:Hser.
  destruct (Z.ltb_spec max_response_length (Z.of_nat (length content)));
    [discriminate|].
  injection Hrun as <-. simpl.
  rewrite Z.sub_0_r in Ha.
  destruct (wrapper_loop wrap call _ 0 _ _ (Z.le_refl 0) Ha)
    as (Hlen & _ & steps & Hsteps & Hacc & Hcells).
  simpl in *. rewrite length_replicate in Hlen.
  exists steps. split; [done|]. split; [done|]. split.
  { apply list_eq. intros k. rewrite list_lookup_fmap.
    destruct (steps !! k) as [[made stored]|] eqn:Hk; simpl.
    - assert (k < Z.to_nat (params_cnt wrap))%nat as Hlt
        by (rewrite <- Hsteps; by eapply lookup_lt_Some).
      eapply Hcells; [done|]. by apply lookup_replicate_2.
    - apply lookup_ge_None. apply lookup_ge_None in Hk. lia. }
  split.
  { intros k made stored Hk.
    assert (k < Z.to_nat (params_cnt wrap))%nat as Hlt
      by (rewrite <- Hsteps; by eapply lookup_lt_Some).
    by destruct (Hcells k made stored item_NULL Hk
                   ltac:(by apply lookup_replicate_2)) as [? _]. }
  rewrite Hser. simpl. by do 4 (split; [done|]).
Qed.

(** The run of [wrapper] seen from one descriptor. *)
Lemma wrapper_Done_at rt wrap call run (k : nat) p :
  wrapper rt wrap call = Done run ->
  (k < Z.to_nat (params_cnt wrap))%nat ->
  u_params wrap !! k = Some (Some p) ->
  exists made stored before after,
    marshal_param call (Z.of_nat k) p = Done (made, stored) /\
    run_accesses run = before ++ made ++ after /\
    run_args run !! k = Some (cell_after stored item_NULL) /\
    length (run_args run) = Z.to_nat (params_cnt wrap) /\
    callable wrap = Some (run_callable run).
Proof.
  intros Hrun Hk Hp.
  destruct (wrapper_Done _ _ _ _ Hrun)
    as (steps & Hlen & Hacc & Hargs & Hsteps & Hcall & _).
  destruct (lookup_lt_is_Some_2 steps k ltac:(lia)) as [[made stored] Hstep].
  destruct (Hsteps _ _ _ Hstep) as (p' & Hp' & Hm).
  assert (p' = p) as -> by congruence.
  exists made, stored, (concat (take k steps).*1),
    (concat (drop (S k) steps).*1).
  split; [done|]. split.
  { rewrite Hacc. rewrite <- (take_drop_middle _ _ _ Hstep) at 1.
    by rewrite fmap_app, concat_app. }
  split; [by rewrite Hargs, list_lookup_fmap, Hstep|].
  split; [by rewrite Hargs, length_fmap|done].
Qed.

(** ** wrapper: one descriptor *)

Lemma may_have_name_true k :
  may_have_name k = true <-> k ≠ POSITIONAL_ONLY.
Proof. destruct k; vm_compute; split; congruence. Qed.

Lemma may_have_pos_true k :
  may_have_pos k = true <->
  k = POSITIONAL_OR_KEYWORD \/ k = VAR_POSITIONAL \/ k = KEYWORD_ONLY.
Proof.
  destruct k; vm_compute; split; try congruence; auto;
    intros [|[|]]; congruence.
Qed.

(** The default recorded in a descriptor plays no part in the call. *)
Lemma marshal_param_ignores_value call i p v :
  marshal_param call i
    {| name := name p; value := v; type := type p; kind := kind p |}
  = marshal_param call i p.
Proof. reflexivity. Qed.

(** A parameter without annotation stops the call. *)
Lemma marshal_param_untyped call i p :
  type p = None -> marshal_param call i p = Crash null_dereference.
Proof. unfold marshal_param. by intros ->. Qed.


Lemma try_named_nonempty {A : Type} (getter : string -> option A) t param :
  param ≠ ""%string ->
  try_named getter t true param (Z.of_nat (String.length param)) =
  (bool_decide (is_Some (getter param)), getter param, [named_access t param]).
Proof.
  intros Hne. unfold try_named.
  destruct param; [done|]. simpl.
  destruct (Z.ltb_spec 0 (Z.pos (Pos.of_succ_nat (String.length param))));
    [done | lia].
Qed.

(** A descriptor that may be named and may be positional, of a declared
    type the marshaller converts: the named getter is called first, the
    positional one only when it yields nothing.  A boolean, an integer or
    a float is built from what the getters wrote; a string that the named
    getter did not yield is not obtained by position either, and the
    iteration stops on the unwritten pointer. *)
Lemma marshal_param_both call i p ty t :
  may_have_name (kind p) = true -> may_have_pos (kind p) = true ->
  type p = Some ty -> wire_of ty = Some t -> name p ≠ ""%string ->
  marshal_param call i p =
    match named_value call t (name p) with
    | Some v => Done ([named_access t (name p)], Some (item v))
    | None =>
      match t with
      | wire_str => Crash uninitialised_read
      | _ => Done ([named_access t (name p); positional_access t i],
                   Some (match positional_value call t i with
                         | Some v => item v
                         | None => item_of_unwritten t
                         end))
      end
    end.
Proof.
  intros Hname Hpos Hty Ht Hne. unfold marshal_param.
  rewrite Hname, Hpos, Hty.
  destruct ty; simpl in Ht; try discriminate; injection Ht as <-; simpl;
    rewrite try_named_nonempty by done; simpl.
  - destruct (ujrpc_param_named_bool call (name p)) as [[]|]; simpl;
      [done..|].
    by destruct (ujrpc_param_positional_bool call i) as [[]|].
  - destruct (ujrpc_param_named_i64 call (name p)); simpl; [done|].
    by destruct (ujrpc_param_positional_i64 call i).
  - destruct (ujrpc_param_named_f64 call (name p)); simpl; [done|].
    by destruct (ujrpc_param_positional_f64 call i).
  - by destruct (ujrpc_param_named_str call (name p)).
Qed.

(** ** wrapper completes on descriptors of a scalar type *)

(** The iteration on a descriptor declared bool, int or float completes
    and stores an object, whatever the request holds. *)
Lemma marshal_param_completes call i p ty t :
  type p = Some ty -> wire_of ty = Some t -> t ≠ wire_str ->
  exists made stored,
    marshal_param call i p = Done (made, Some stored) /\ stored ≠ item_NULL.
Proof.
  intros Hty Ht Hstr. unfold marshal_param. rewrite Hty.
  destruct ty; simpl in Ht |- *; try discriminate;
    injection Ht as <-; try done;
    repeat match goal with
    | |- context [let '(_, _) := ?t in _] => destruct t as [[? ?] ?]
    | |- context [let '(_, _) := ?t in _] => destruct t as [? ?]
    end;
    (eexists _, _; split; [reflexivity|]);
    unfold item_from; by repeat case_match.
Qed.

Lemma wrapper_loop_completes wrap call n :
  forall i st,
    0 <= i ->
    (forall k : nat, (Z.to_nat i <= k < Z.to_nat i + n)%nat ->
       exists p ty t, u_params wrap !! k = Some (Some p) /\
                      type p = Some ty /\ wire_of ty = Some t /\
                      t ≠ wire_str) ->
    exists st', for_steps n i (wrapper_body wrap call) st = Done st'.
Proof.
  induction n as [|n IH]; intros i st Hi Hcells; [by exists st|].
  destruct (Hcells (Z.to_nat i) ltac:(lia)) as (p & ty & t & Hp & Hty & Ht & Hstr).
  destruct (marshal_param_completes call i p ty t Hty Ht Hstr)
    as (made & stored & Hm & _).
  assert (exists st1, wrapper_body wrap call i st = Done st1) as [st1 Hstep].
  { unfold wrapper_body, read_param. rewrite Hp. simpl. rewrite Hm. simpl.
    eauto. }
  rewrite for_steps_succ, Hstep. simpl.
  apply IH; [lia|]. intros k Hk. apply Hcells. lia.
Qed.

(** [wrapper] completes when every cell within the recorded count is a
    written descriptor declared bool, int or float, a callable is bound
    and the serialised return value fits the buffer. *)
Lemma wrapper_completes rt wrap call fn :
  (forall k : nat, (k < Z.to_nat (params_cnt wrap))%nat ->
     exists p ty t, u_params wrap !! k = Some (Some p) /\
                    type p = Some ty /\ wire_of ty = Some t /\
                    t ≠ wire_str) ->
  callable wrap = Some fn ->
  (forall tuple,
     Z.of_nat (length (to_string rt (PyObject_CallObject rt fn tuple)).2)
     <= max_response_length) ->
  exists run, wrapper rt wrap call = Done run.
Proof.
  intros Hcells Hfn Hfits. unfold wrapper, write_buffer, for_range.
  destruct (wrapper_loop_completes wrap call
              (Z.to_nat (params_cnt wrap - 0)) 0
              {| args := replicate (Z.to_nat (params_cnt wrap)) item_NULL;
                 accesses := [] |} (Z.le_refl 0)) as [st Hloop].
  { intros k Hk. apply Hcells. lia. }
  rewrite Hloop. simpl. rewrite Hfn.
  destruct (wrapper_loop wrap call _ 0 _ _ (Z.le_refl 0) Hloop)
    as (Hlen & _ & steps & Hsteps & _ & Hstored).
  simpl in Hlen, Hstored. rewrite length_replicate in Hlen.
  rewrite bool_decide_eq_false_2.
  2:{ intros (k & Hk)%list_elem_of_lookup_1.
      assert (k < Z.to_nat (params_cnt wrap))%nat as Hlt
        by (rewrite <- Hlen; by eapply lookup_lt_Some).
      destruct (lookup_lt_is_Some_2 steps k ltac:(lia)) as [[made stored] Hstep].
      destruct (Hstored k made stored item_NULL Hstep
                  ltac:(by apply lookup_replicate_2))
        as [(p & Hp & Hm) Hcell].
      destruct (Hcells k Hlt) as (p' & ty & t & Hp' & Hty & Ht & Hstr).
      assert (p' = p) as -> by congruence.
      destruct (marshal_param_completes call (Z.of_nat k) p ty t Hty Ht Hstr)
        as (made' & o & Hm' & Ho).
      rewrite Z.add_0_l in Hm. rewrite Hm' in Hm. injection Hm as _ <-.
      simpl in Hcell. congruence. }
  specialize (Hfits (args st)).
  destruct (to_string rt _) as [res content]. simpl in Hfits.
  destruct (Z.ltb_spec max_response_length (Z.of_nat (length content)));
    [lia | eauto].
Qed.

(** ** The variadic-keyword block and the response buffer *)

Lemma PyDict_GetItem_Done {V : Type} (d : option (gmap string V))
    (key : option string) (v : option V) :
  PyDict_GetItem d key = Done v ->
  exists m k, d = Some m /\ key = Some k /\ v = m !! k.
Proof.
  destruct d as [m|], key as [k|]; try discriminate. intros [= <-]. eauto.
Qed.

(** A completed annotation lookup: the name exists, and so does the
    dictionary. *)
Lemma annotation_Done fn (key : option string) (v : option PyTypeObject) :
  PyDict_GetItem (func_annotations fn) key = Done v ->
  exists param, key = Some param /\ v = annotation fn param /\
                is_Some (func_annotations fn).
Proof.
  intros (m & k & Hm & -> & ->)%PyDict_GetItem_Done.
  exists k. unfold annotation. rewrite Hm. eauto.
Qed.

Lemma var_keyword_block_name fn flags pos kw st st' ps k :
  Z.land flags CO_VARKEYWORDS ≠ 0 ->
  filled st ps k ->
  var_keyword_block fn flags pos kw st = Done st' ->
  exists param k',
    PyTuple_GetItem (co_varnames (func_code fn)) (pos + kw + 1) = Some param /\
    filled st' (ps ++ [{| name := param;
                          value := None;
                          type := annotation fn param;
                          kind := VAR_KEYWORD |}]) k'.
Proof.
  intros Hvk Hst. unfold var_keyword_block. rewrite logical_and_flags by done.
  intros Hrun. unbind Hrun.
  apply annotation_Done in Ha as (param & Hname & -> & _).
  rewrite Hname in Hrun. simpl in Hrun.
  destruct (store_param_filled _ _ _ _ _ Hst Hrun) as (k' & _ & Hst' & _).
  eauto.
Qed.

(** A payload longer than the buffer is stored past its end: [wrapper]
    neither enlarges the buffer nor answers with an error. *)
Lemma wrapper_oversized rt wrap call st fn :
  for_range 0 (params_cnt wrap) (wrapper_body wrap call)
    {| args := replicate (Z.to_nat (params_cnt wrap)) item_NULL;
       accesses := [] |} = Done st ->
  callable wrap = Some fn ->
  item_NULL ∉ args st ->
  max_response_length <
    Z.of_nat (length (to_string rt (PyObject_CallObject rt fn (args st))).2) ->
  wrapper rt wrap call = Crash out_of_bounds.
Proof.
  intros Hloop Hfn Hset Hlen. unfold wrapper, write_buffer.
  rewrite Hloop, Hfn. simpl.
  rewrite bool_decide_eq_false_2 by done.
  destruct (to_string rt _) as [res content]. simpl in Hlen.
  by destruct (Z.ltb_spec max_response_length (Z.of_nat (length content)));
    [|lia].
Qed.

(** The status [to_string] returns has no influence on the run. *)
Lemma wrapper_ignores_status rt wrap call (status : Z) :
  wrapper {| PyObject_CallObject := PyObject_CallObject rt;
             to_string := fun r => (status, (to_string rt r).2) |} wrap call
  = wrapper rt wrap call.
Proof.
  unfold wrapper, write_buffer.
  destruct (for_range _ _ _ _) as [st|]; simpl; [|done].
  destruct (callable wrap); [|done]. case_bool_decide; [done|].
  by destruct (to_string rt _).
Qed.

(** ** Registration *)

(** [deduce_parameters] reads nothing of the previous [wrap] but its
    callable, which it hands back. *)
Lemma deduce_parameters_fresh fn wrap wrap' :
  deduce_parameters fn wrap = Done wrap' ->
  deduce_parameters fn wrap_initial =
    Done {| u_params := u_params wrap';
            params_cnt := params_cnt wrap';
            callable := None |}.
Proof.
  unfold deduce_parameters. intros Hrun. unbind Hrun. rewrite Ha.
  by injection Hrun as <-.
Qed.

(** A successful registration replaces the whole of [wrap] by the
    signature and callable of the procedure registered, and routes its
    name to [wrapper]; nothing of the previous binding survives. *)
Lemma server_add_procedure_returned self args wrap self' wrap' :
  server_add_procedure self args wrap = Done (returned Py_None, self', wrap') ->
  exists fn,
    args = [py_function fn] /\
    callable wrap' = Some fn /\
    deduce_parameters fn wrap_initial =
      Done {| u_params := u_params wrap';
              params_cnt := params_cnt wrap';
              callable := None |} /\
    server self' = <[func_name fn := callback_wrapper]> (server self) /\
    count_added self' = count_added self.
Proof.
  unfold server_add_procedure, parse_one_object. intros Hrun.
  destruct args as [|[fn|b|o] [|]]; try discriminate.
  unbind Hrun. injection Hrun as <- <-. simpl.
  exists fn. repeat split. by eapply deduce_parameters_fresh.
Qed.

Lemma server_add_procedure_count self args wrap r self' wrap' :
  server_add_procedure self args wrap = Done (r, self', wrap') ->
  count_added self' = count_added self.
Proof.
  unfold server_add_procedure, parse_one_object. intros Hrun.
  destruct args as [|[fn|b|o] [|]];
    try discriminate; try (by injection Hrun as _ <- _).
  unbind Hrun. by injection Hrun as _ <- _.
Qed.

Lemma server_add_procedure_completes self args wrap :
  Forall registrable args ->
  exists r self' wrap',
    server_add_procedure self args wrap = Done (r, self', wrap').
Proof.
  intros Hargs. unfold server_add_procedure, parse_one_object.
  destruct args as [|[fn|b|o] [|]]; eauto.
  - apply Forall_cons_1 in Hargs as [Hfn _].
    destruct (deduce_parameters_completes fn wrap Hfn) as [wrap' ->].
    simpl. eauto.
  - by apply Forall_cons_1 in Hargs as [[] _].
Qed.

Lemma add_procedures_completes procedures :
  Forall registrable procedures ->
  forall self wrap,
    exists self' wrap',
      add_procedures procedures self wrap = Done (self', wrap').
Proof.
  induction 1 as [|o rest Ho _ IH]; intros self wrap; simpl; [eauto|].
  destruct (server_add_procedure_completes self [o] wrap)
    as (r & self1 & wrap1 & ->); [by constructor|].
  simpl. apply IH.
Qed.

(** Every name registered so far is served by the one [wrap], which holds
    the binding of the last registration. *)
Lemma last_registration_serves_all rt self wrap f g self1 wrap1 self2 wrap2 call :
  server_add_procedure self [py_function f] wrap
    = Done (returned Py_None, self1, wrap1) ->
  server_add_procedure self1 [py_function g] wrap1
    = Done (returned Py_None, self2, wrap2) ->
  ujrpc_take_call rt self2 wrap2 (func_name f) call = Some (wrapper rt wrap2 call) /\
  ujrpc_take_call rt self2 wrap2 (func_name g) call = Some (wrapper rt wrap2 call) /\
  callable wrap2 = Some g /\
  deduce_parameters g wrap_initial =
    Done {| u_params := u_params wrap2;
            params_cnt := params_cnt wrap2;
            callable := None |}.
Proof.
  intros Hf Hg.
  apply server_add_procedure_returned in Hf as (? & [= <-] & _ & _ & Hs1 & _).
  apply server_add_procedure_returned in Hg as (? & [= <-] & Hc & Hd & Hs2 & _).
  unfold ujrpc_take_call, ujrpc_add_procedure in *. rewrite Hs2, Hs1.
  rewrite lookup_insert_eq.
  destruct (decide (func_name g = func_name f)) as [->|Hne].
  - by rewrite lookup_insert_eq.
  - rewrite lookup_insert_ne, lookup_insert_eq by done. done.
Qed.

(** * The claims *)

Import Samples.

(** C1. The claim: a call for the first of two procedures registered
    under distinct names consults that procedure's own signature and
    callable.  On the code: after [first(x: int)] and [second(flag: bool)]
    are registered, a call for ["first"] that supplies [x = 7] requests the
    boolean [flag] of [second], by name and then at position 0, and invokes
    [second]; the integer [x] is never requested. *)
Theorem call_for_first_runs_second :
  func_name first ≠ func_name second /\
  run_script (returning Py_None) server0
    [py_function first; py_function second] "first"
    (request {[ "x"%string := Py_Long 7 ]} [])
  = Some (Done {| run_accesses := [named_access wire_bool "flag";
                                   positional_access wire_bool 0];
                  run_callable := second;
                  run_args := [item_of_unwritten wire_bool];
                  reply_capacity := 1024;
                  reply_content := String.list_byte_of_string "null" |}).
Proof. split; [discriminate | vm_compute; reflexivity]. Qed.

(** C2. The claim: the count of the signature is the positional count,
    plus 1 for a variadic-positional parameter, plus the keyword-only
    count, plus 1 for a variadic-keyword parameter.  On the code: for
    [def star( *rest: int )] one descriptor is written and the recorded
    count is 4, the value of the mask [CO_VARARGS]; the three further
    cells of the array are never written. *)
Theorem star_count_is_the_mask :
  deduce_parameters star wrap_initial
  = Done {| u_params := [Some {| name := "rest"; value := None;
                                 type := Some PyLong_Type;
                                 kind := VAR_POSITIONAL |};
                         None; None; None];
            params_cnt := 4;
            callable := None |} /\
  total_params star = 4 /\
  co_argcount (func_code star)
  + flag_present (co_flags (func_code star)) CO_VARARGS
  + co_kwonlyargcount (func_code star)
  + flag_present (co_flags (func_code star)) CO_VARKEYWORDS = 1.
Proof. repeat split; vm_compute; reflexivity. Qed.

(** C3. The claim: extraction by name is attempted exactly for
    PositionalOrKeyword, KeywordOnly and VariadicKeyword, extraction by
    position exactly for PositionalOnly, PositionalOrKeyword and
    VariadicPositional.  On the code: the two tests of [wrapper] combine
    the enumerators 0..4 with a bitwise and, so that by name are read all
    kinds but PositionalOnly (VariadicPositional included) and by position
    PositionalOrKeyword, VariadicPositional and KeywordOnly (PositionalOnly
    excluded); a call for [only_pos(x: int, /)] with 7 at position 0 makes
    no getter call at all. *)
Theorem eligibility_by_kind :
  may_have_name <$> [POSITIONAL_ONLY; POSITIONAL_OR_KEYWORD; VAR_POSITIONAL;
                     KEYWORD_ONLY; VAR_KEYWORD]
  = [false; true; true; true; true] /\
  may_have_pos <$> [POSITIONAL_ONLY; POSITIONAL_OR_KEYWORD; VAR_POSITIONAL;
                    KEYWORD_ONLY; VAR_KEYWORD]
  = [false; true; true; true; false] /\
  run_script (returning Py_None) server0 [py_function only_pos] "only_pos"
    (request ∅ [Py_Long 7])
  = Some (Done {| run_accesses := [];
                  run_callable := only_pos;
                  run_args := [item_of_unwritten wire_i64];
                  reply_capacity := 1024;
                  reply_content := String.list_byte_of_string "null" |}) /\
  marshal_param (request ∅ [Py_Long 7]) 0
    {| name := "rest"; value := None; type := Some PyLong_Type;
       kind := VAR_POSITIONAL |}
  = Done ([named_access wire_i64 "rest"; positional_access wire_i64 0],
          Some (item (Py_Long 7))) /\
  marshal_param (request ∅ [Py_Long 7]) 0
    {| name := "limit"; value := None; type := Some PyLong_Type;
       kind := KEYWORD_ONLY |}
  = Done ([named_access wire_i64 "limit"; positional_access wire_i64 0],
          Some (item (Py_Long 7))).
Proof. repeat split; vm_compute; reflexivity. Qed.

(** C4. The claim: a parameter that may be named and may be positional
    is extracted by name first and by position only when the name yields
    nothing; the arguments are assembled in descriptor order and the
    callable is invoked with them.  On the code: in a call for
    [pair(n: int, label: str)] with the parameters [[3, "x"]], the integer
    [n] is requested by name, then at position 0, and 3 is stored; the
    string [label] is requested by name, then at position 1, where the
    request holds ["x"], but the positional getter of strings is handed
    the unwritten [res] instead of its address, the string never reaches
    [res], the object is built through the unwritten pointer and [pair]
    is not invoked.  With both parameters supplied by name the call
    completes on the named getters alone. *)
Theorem positional_string_never_arrives :
  may_have_name POSITIONAL_OR_KEYWORD = true /\
  may_have_pos POSITIONAL_OR_KEYWORD = true /\
  deduce_parameters pair wrap_initial
  = Done {| u_params :=
              [Some {| name := "n"; value := None; type := Some PyLong_Type;
                       kind := POSITIONAL_OR_KEYWORD |};
               Some {| name := "label"; value := None;
                       type := Some PyUnicode_Type;
                       kind := POSITIONAL_OR_KEYWORD |}];
            params_cnt := 2;
            callable := None |} /\
  marshal_param (request ∅ [Py_Long 3; Py_Unicode "x"]) 0
    {| name := "n"; value := None; type := Some PyLong_Type;
       kind := POSITIONAL_OR_KEYWORD |}
  = Done ([named_access wire_i64 "n"; positional_access wire_i64 0],
          Some (item (Py_Long 3))) /\
  named_value (request ∅ [Py_Long 3; Py_Unicode "x"]) wire_str "label"
  = None /\
  positional_value (request ∅ [Py_Long 3; Py_Unicode "x"]) wire_str 1
  = Some (Py_Unicode "x") /\
  try_positional_str true false 1 None
  = (None, [positional_access wire_str 1]) /\
  marshal_param (request ∅ [Py_Long 3; Py_Unicode "x"]) 1
    {| name := "label"; value := None; type := Some PyUnicode_Type;
       kind := POSITIONAL_OR_KEYWORD |}
  = Crash uninitialised_read /\
  run_script (returning Py_None) server0 [py_function pair] "pair"
    (request ∅ [Py_Long 3; Py_Unicode "x"])
  = Some (Crash uninitialised_read) /\
  run_script (returning Py_None) server0 [py_function pair] "pair"
    (request {[ "n"%string := Py_Long 3; "label"%string := Py_Unicode "x" ]} [])
  = Some (Done {| run_accesses := [named_access wire_i64 "n";
                                   named_access wire_str "label"];
                  run_callable := pair;
                  run_args := [item (Py_Long 3); item (Py_Unicode "x")];
                  reply_capacity := 1024;
                  reply_content := String.list_byte_of_string "null" |}).
Proof. repeat split; vm_compute; reflexivity. Qed.

(** C5. The claim: a parameter supplied neither by name nor by position
    takes its default, or the call fails with MissingRequiredParameter and
    an error response, the callable not being invoked.  On the code: for
    [h(a: int = 5)] and a request without parameters both getters are
    called and yield nothing, the default 5 recorded by
    [deduce_parameters] is not read, the argument is built from the local
    that no getter wrote, and [h] is invoked; the reply is the serialised
    return value. *)
Theorem missing_parameter_is_passed_unwritten :
  deduce_parameters h wrap_initial
  = Done {| u_params := [Some {| name := "a"; value := Some (Py_Long 5);
                                 type := Some PyLong_Type;
                                 kind := POSITIONAL_OR_KEYWORD |}];
            params_cnt := 1;
            callable := None |} /\
  run_script (returning Py_None) server0 [py_function h] "h" (request ∅ [])
  = Some (Done {| run_accesses := [named_access wire_i64 "a";
                                   positional_access wire_i64 0];
                  run_callable := h;
                  run_args := [item_of_unwritten wire_i64];
                  reply_capacity := 1024;
                  reply_content := String.list_byte_of_string "null" |}).
Proof. split; vm_compute; reflexivity. Qed.

(** C6. The claim: for [f(a, b=2, *args, c, d=4, **kw)] deduction yields
    exactly six descriptors.  On the code: [f] carries no annotation,
    [PyFunction_GetAnnotations] gives [NULL] for it and the lookup of the
    annotation of [a] stops [deduce_parameters]; once the annotation
    dictionary of [f] exists (reading [f.__annotations__] creates it,
    empty), the six descriptors are written in the order and with the
    kinds and defaults the claim gives, and the signature is recorded
    with 16 cells, the last ten never written. *)
Theorem f_signature_has_sixteen_cells :
  func_annotations f = None /\
  deduce_parameters f wrap_initial = Crash null_dereference /\
  func_annotations (annotations_read f) = Some ∅ /\
  deduce_parameters (annotations_read f) wrap_initial
  = Done {| u_params :=
              (Some <$>
                 [{| name := "a"; value := None; type := None;
                     kind := POSITIONAL_OR_KEYWORD |};
                  {| name := "b"; value := Some (Py_Long 2); type := None;
                     kind := POSITIONAL_OR_KEYWORD |};
                  {| name := "args"; value := None; type := None;
                     kind := VAR_POSITIONAL |};
                  {| name := "c"; value := None; type := None;
                     kind := KEYWORD_ONLY |};
                  {| name := "d"; value := Some (Py_Long 4); type := None;
                     kind := KEYWORD_ONLY |};
                  {| name := "kw"; value := None; type := None;
                     kind := VAR_KEYWORD |}])
              ++ replicate 10 None;
            params_cnt := 16;
            callable := None |}.
Proof. repeat split; vm_compute; reflexivity. Qed.

(** C7. The claim: the name of the VariadicKeyword descriptor is the raw
    name right after the keyword-only names, one slot further only when a
    variadic-positional parameter is present.  On the code: for
    [def g(a: int, **kw: int): x = 1], which has no variadic-positional
    parameter and the raw names [a, kw, x], the descriptor is named [x],
    the name one slot too far, and carries no type, [x] having no
    annotation. *)
Theorem g_variadic_keyword_named_after_local :
  Z.land (co_flags (func_code g)) CO_VARARGS = 0 /\
  PyTuple_GetItem (co_varnames (func_code g))
    (co_argcount (func_code g) + co_kwonlyargcount (func_code g))
  = Some "kw"%string /\
  deduce_parameters g wrap_initial
  = Done {| u_params :=
              (Some <$>
                 [{| name := "a"; value := None; type := Some PyLong_Type;
                     kind := POSITIONAL_OR_KEYWORD |};
                  {| name := "x"; value := None; type := None;
                     kind := VAR_KEYWORD |}])
              ++ replicate 7 None;
            params_cnt := 9;
            callable := None |}.
Proof. repeat split; vm_compute; reflexivity. Qed.

(** C8. The claim: when the serialised return value exceeds the capacity
    of the response buffer, the marshaller enlarges the buffer or fails
    with ResponseTooLarge.  On the code: the buffer has 1024 bytes
    whatever the payload; a return value serialised on 1024 bytes is
    replied; one serialised on 1025 bytes is stored past the end of the
    buffer, and no reply of any kind is written. *)
Theorem oversized_reply_overruns_buffer :
  run_script (returning (Py_Unicode (letters 1022))) server0
    [py_function banner] "banner" (request ∅ [])
  = Some (Done {| run_accesses := [];
                  run_callable := banner;
                  run_args := [];
                  reply_capacity := max_response_length;
                  reply_content :=
                    quote :: replicate 1022 Byte.x61 ++ [quote] |}) /\
  Z.of_nat (length (to_string (returning (Py_Unicode (letters 1023)))
                      (Some (Py_Unicode (letters 1023)))).2) = 1025 /\
  run_script (returning (Py_Unicode (letters 1023))) server0
    [py_function banner] "banner" (request ∅ [])
  = Some (Crash out_of_bounds).
Proof. repeat split; vm_compute; reflexivity. Qed.

(** C9. The claim: a parameter declared bytes, or without declared
    type, receives the raw payload at its position of the argument list;
    the value is not dropped and the slot is not left unset.  On the
    code: in a call for [store(key: str, blob: bytes, ttl: int)] that
    supplies the three parameters by name, the branch of [blob] requests
    nothing and stores nothing, the loop ends with the cell of [blob]
    still [NULL] between the two others, and the call of [store] on that
    tuple is a null dereference: nothing is replied.  In a call for
    [keep(key: str, blob)], the type test on the descriptor of [blob],
    which has no declared type, is a null dereference. *)
Theorem bytes_argument_is_left_unset :
  named_value
    (request {[ "key"%string := Py_Unicode "k"; "blob"%string := Py_Unicode "xyz";
                "ttl"%string := Py_Long 3 ]} []) wire_str "blob"
  = Some (Py_Unicode "xyz") /\
  marshal_param
    (request {[ "key"%string := Py_Unicode "k"; "blob"%string := Py_Unicode "xyz";
                "ttl"%string := Py_Long 3 ]} []) 1
    {| name := "blob"; value := None; type := Some PyBytes_Type;
       kind := POSITIONAL_OR_KEYWORD |}
  = Done ([], None) /\
  for_range 0 3
    (wrapper_body
       {| u_params :=
            [Some {| name := "key"; value := None;
                     type := Some PyUnicode_Type;
                     kind := POSITIONAL_OR_KEYWORD |};
             Some {| name := "blob"; value := None;
                     type := Some PyBytes_Type;
                     kind := POSITIONAL_OR_KEYWORD |};
             Some {| name := "ttl"; value := None;
                     type := Some PyLong_Type;
                     kind := POSITIONAL_OR_KEYWORD |}];
          params_cnt := 3;
          callable := Some store |}
       (request {[ "key"%string := Py_Unicode "k";
                   "blob"%string := Py_Unicode "xyz";
                   "ttl"%string := Py_Long 3 ]} []))
    {| args := replicate 3 item_NULL; accesses := [] |}
  = Done {| args := [item (Py_Unicode "k"); item_NULL; item (Py_Long 3)];
            accesses := [named_access wire_str "key";
                         named_access wire_i64 "ttl"] |} /\
  add_procedures [py_function store] server0 wrap_initial
  = Done ({| config := config server0;
             server := {[ "store"%string := callback_wrapper ]};
             count_added := 0;
             thread_cnt := 1 |},
          {| u_params :=
               [Some {| name := "key"; value := None;
                        type := Some PyUnicode_Type;
                        kind := POSITIONAL_OR_KEYWORD |};
                Some {| name := "blob"; value := None;
                        type := Some PyBytes_Type;
                        kind := POSITIONAL_OR_KEYWORD |};
                Some {| name := "ttl"; value := None;
                        type := Some PyLong_Type;
                        kind := POSITIONAL_OR_KEYWORD |}];
             params_cnt := 3;
             callable := Some store |}) /\
  run_script (returning Py_None) server0 [py_function store] "store"
    (request {[ "key"%string := Py_Unicode "k"; "blob"%string := Py_Unicode "xyz";
                "ttl"%string := Py_Long 3 ]} [])
  = Some (Crash null_dereference) /\
  deduce_parameters keep wrap_initial
  = Done {| u_params :=
              [Some {| name := "key"; value := None;
                       type := Some PyUnicode_Type;
                       kind := POSITIONAL_OR_KEYWORD |};
               Some {| name := "blob"; value := None; type := None;
                       kind := POSITIONAL_OR_KEYWORD |}];
            params_cnt := 2;
            callable := None |} /\
  run_script (returning Py_None) server0 [py_function keep] "keep"
    (request {[ "key"%string := Py_Unicode "k";
                "blob"%string := Py_Unicode "xyz" ]} [])
  = Some (Crash null_dereference).
Proof. repeat split; vm_compute; reflexivity. Qed.

(** C10.  [add_procedure] never changes [count_added]: after any number
    of registrations, successful or refused, the count the server reports
    as its length is the one it had before them, which is the one of its
    construction. *)
Theorem count_added_never_incremented procedures self wrap self' wrap' :
  add_procedures procedures self wrap = Done (self', wrap') ->
  count_added self' = count_added self /\
  server_callbacks_count self' = server_callbacks_count self.
Proof.
  unfold server_callbacks_count.
  revert self wrap. induction procedures as [|procedure rest IH];
    intros self wrap Hrun; simpl in Hrun.
  - by injection Hrun as <- _.
  - unbind Hrun. destruct a as [[r self1] wrap1].
    apply server_add_procedure_count in Ha.
    destruct (IH _ _ Hrun) as [-> _]. auto.
Qed.

Lemma count_added_never_incremented_witness :
  exists self' wrap',
    add_procedures [py_function first; py_value (Py_Long 1); py_function second]
      (server_init 8545 128 16) wrap_initial = Done (self', wrap') /\
    server self' !! "first"%string = Some callback_wrapper /\
    server self' !! "second"%string = Some callback_wrapper /\
    count_added self' = count_added (server_init 8545 128 16) /\
    server_callbacks_count self' = 0.
Proof.
  eexists _, _. split; [reflexivity|].
  split; [vm_compute; reflexivity|]. split; [vm_compute; reflexivity|].
  refine (count_added_never_incremented
            [py_function first; py_value (Py_Long 1); py_function second]
            (server_init 8545 128 16) wrap_initial _ _ _).
  reflexivity.
Defined.

(** * Further properties *)

(** ** deduce_parameters: the descriptors written *)

Lemma PyTuple_GetItem_Some {A : Type} (t : list A) (i : Z) (x : A) :
  PyTuple_GetItem t i = Some x -> 0 <= i /\ t !! Z.to_nat i = Some x.
Proof.
  unfold PyTuple_GetItem. destruct (Z.ltb_spec i 0); [discriminate|]. done.
Qed.

Lemma for_steps_descriptors fn I lo hi body D n :
  stores_descriptor fn I lo hi body D ->
  forall i st st' ps k,
    0 <= lo -> lo <= i -> i + Z.of_nat n <= hi ->
    filled st ps k -> I i st ->
    for_steps n i body st = Done st' ->
    exists k',
      k = (n + k')%nat /\
      length (take n (drop (Z.to_nat i) (co_varnames (func_code fn)))) = n /\
      filled st'
        (ps ++ imap (fun j => D (i + Z.of_nat j))
                 (take n (drop (Z.to_nat i) (co_varnames (func_code fn)))))
        k' /\
      I (i + Z.of_nat n) st'.
Proof.
  intros Hbody. induction n as [|n IH];
    intros i st st' ps k Hlo Hi Hn Hst HI Hrun.
  - injection Hrun as <-. exists k. rewrite Z.add_0_r. simpl.
    rewrite app_nil_r. auto.
  - rewrite for_steps_succ in Hrun. unbind Hrun. rename a into st1.
    destruct (Hbody i st st1 ps k ltac:(lia) Hst HI Ha)
      as (param & k1 & Hname & -> & Hst1 & HI1).
    destruct (IH (i + 1) st1 st' _ k1 Hlo ltac:(lia) ltac:(lia) Hst1 HI1 Hrun)
      as (k' & -> & Hlen & Hst' & HI').
    assert (Z.to_nat (i + 1) = S (Z.to_nat i)) as Hsucc by lia.
    rewrite Hsucc in *.
    exists k'. split; [lia|]. split.
    { rewrite (drop_S _ _ _ Hname). simpl. by rewrite Hlen. }
    split.
    + rewrite (drop_S _ _ _ Hname), firstn_cons, imap_cons.
      rewrite <- app_assoc in Hst'. simpl in Hst'. rewrite Z.add_0_r.
      erewrite imap_ext; [exact Hst'|].
      intros j nm _. simpl. f_equal. lia.
    + by replace (i + Z.of_nat (S n)) with (i + 1 + Z.of_nat n) by lia.
Qed.

Lemma non_default_body_descriptor fn :
  stores_descriptor fn
    (fun i st => posonly_left st = co_posonlyargcount (func_code fn) - i)
    0 (co_argcount (func_code fn) - Z.of_nat (length (func_defaults fn)))
    (non_default_body fn) (positional_descriptor fn).
Proof.
  intros i st st' ps k Hi Hst HI Hrun. unfold non_default_body in Hrun.
  unbind Hrun. apply annotation_Done in Ha as (param & Hname & -> & _).
  apply PyTuple_GetItem_Some in Hname as Hlookup. destruct Hlookup as [_ Hl].
  rewrite Hname in Hrun. simpl in Hrun.
  apply positional_kind_filled in Hst.
  destruct (store_param_filled _ _ _ _ _ Hst Hrun) as (k' & -> & Hst' & Hleft).
  exists param, k'. split; [done|]. split; [done|]. split.
  - unfold positional_descriptor. simpl in *. rewrite HI in Hst'.
    destruct (Z.ltb_spec i (co_argcount (func_code fn)
                            - Z.of_nat (length (func_defaults fn)))); [|lia].
    destruct (Z.ltb_spec 0 (co_posonlyargcount (func_code fn) - i)),
      (Z.ltb_spec i (co_posonlyargcount (func_code fn)));
      first [lia | exact Hst'].
  - rewrite Hleft. simpl. lia.
Qed.

Lemma default_body_descriptor fn :
  stores_descriptor fn
    (fun i st => posonly_left st = co_posonlyargcount (func_code fn) - i)
    (co_argcount (func_code fn) - Z.of_nat (length (func_defaults fn)))
    (co_argcount (func_code fn))
    (default_body fn
       (co_argcount (func_code fn) - Z.of_nat (length (func_defaults fn))))
    (positional_descriptor fn).
Proof.
  intros i st st' ps k Hi Hst HI Hrun. unfold default_body in Hrun.
  unbind Hrun. apply annotation_Done in Ha as (param & Hname & -> & _).
  apply PyTuple_GetItem_Some in Hname as Hlookup. destruct Hlookup as [_ Hl].
  rewrite Hname in Hrun. simpl in Hrun.
  apply positional_kind_filled in Hst.
  destruct (store_param_filled _ _ _ _ _ Hst Hrun) as (k' & -> & Hst' & Hleft).
  exists param, k'. split; [done|]. split; [done|]. split.
  - unfold positional_descriptor. simpl in *. rewrite HI in Hst'.
    destruct (Z.ltb_spec i (co_argcount (func_code fn)
                            - Z.of_nat (length (func_defaults fn)))); [lia|].
    destruct (Z.ltb_spec 0 (co_posonlyargcount (func_code fn) - i)),
      (Z.ltb_spec i (co_posonlyargcount (func_code fn)));
      first [lia | exact Hst'].
  - rewrite Hleft. simpl. lia.
Qed.

Lemma keyword_only_body_descriptor fn :
  stores_descriptor fn (fun _ _ => True)
    (co_argcount (func_code fn))
    (co_argcount (func_code fn) + co_kwonlyargcount (func_code fn))
    (keyword_only_body fn) (fun _ => keyword_only_descriptor fn).
Proof.
  intros i st st' ps k Hi Hst _ Hrun. unfold keyword_only_body in Hrun.
  apply bind_Done in Hrun as (v & Hv & Hrun).
  apply PyDict_GetItem_Done in Hv as (m & param & [= <-] & Hname & ->).
  apply PyTuple_GetItem_Some in Hname as Hlookup. destruct Hlookup as [_ Hl].
  apply bind_Done in Hrun as (ty & Hty & Hrun).
  apply annotation_Done in Hty as (param' & Hname' & -> & _).
  rewrite Hname in Hname', Hrun. injection Hname' as <-. simpl in Hrun.
  destruct (store_param_filled _ _ _ _ _ Hst Hrun) as (k' & -> & Hst' & _).
  exists param, k'. auto.
Qed.

Lemma var_positional_block_descriptor fn pos kw st st' ps k :
  filled st ps k ->
  var_positional_block fn pos kw st = Done st' ->
  exists param k',
    PyTuple_GetItem (co_varnames (func_code fn)) (pos + kw) = Some param /\
    k = S k' /\
    filled st' (ps ++ [variadic_descriptor fn VAR_POSITIONAL param]) k'.
Proof.
  intros Hst Hrun. unfold var_positional_block in Hrun.
  unbind Hrun. apply annotation_Done in Ha as (param & Hname & -> & _).
  rewrite Hname in Hrun. simpl in Hrun.
  destruct (store_param_filled _ _ _ _ _ Hst Hrun) as (k' & -> & Hst' & _).
  exists param, k'. auto.
Qed.

Lemma var_keyword_block_descriptor fn flags pos kw st st' ps k :
  Z.land flags CO_VARKEYWORDS ≠ 0 ->
  filled st ps k ->
  var_keyword_block fn flags pos kw st = Done st' ->
  exists param k',
    PyTuple_GetItem (co_varnames (func_code fn)) (pos + kw + 1) = Some param /\
    k = S k' /\
    filled st' (ps ++ [variadic_descriptor fn VAR_KEYWORD param]) k'.
Proof.
  intros Hvk Hst Hrun. unfold var_keyword_block in Hrun.
  rewrite logical_and_flags in Hrun by done.
  unbind Hrun. apply annotation_Done in Ha as (param & Hname & -> & _).
  rewrite Hname in Hrun. simpl in Hrun.
  destruct (store_param_filled _ _ _ _ _ Hst Hrun) as (k' & -> & Hst' & _).
  exists param, k'. auto.
Qed.

(** The array after the last block holds the descriptors of
    [signature_of], then unwritten cells. *)
Lemma deduce_fill_signature fn st :
  0 <= co_argcount (func_code fn) ->
  0 <= co_kwonlyargcount (func_code fn) ->
  deduce_fill fn = Done st ->
  exists k, filled st (signature_of fn) k /\
            (length (signature_of fn) + k)%nat = Z.to_nat (total_params fn) /\
            Z.of_nat (length (func_defaults fn)) <= co_argcount (func_code fn).
Proof.
  intros Hpos Hkw Hrun. unfold deduce_fill in Hrun.
  set (code := func_code fn) in *.
  set (names := co_varnames code) in *.
  set (ndc := co_argcount code - Z.of_nat (length (func_defaults fn))) in *.
  set (K := Z.to_nat (total_params fn)) in *.
  assert (filled {| parameters := replicate K None; param_i := 0;
                    posonly_left := co_posonlyargcount code |} [] K) as H0
    by (split; reflexivity).
  unbind Hrun. rename a into st1. unbind Hrun. rename a into st2.
  assert (0 <= ndc) as Hndc.
  { destruct (Z.le_gt_cases 0 ndc) as [|Hneg]; [done|exfalso].
    unfold for_range in Ha0.
    destruct (Z.to_nat (co_argcount code - ndc)) as [|n] eqn:Hn; [lia|].
    rewrite for_steps_succ, default_body_negative in Ha0 by lia.
    discriminate. }
  unfold for_range in *.
  eapply (for_steps_descriptors fn _ 0 ndc _ _ _
            (non_default_body_descriptor fn)) in Ha
    as (k1 & HK1 & Hl1 & H1 & HI1);
    [ | first [exact H0 | lia | (simpl; fold code; lia)] ..].
  eapply (for_steps_descriptors fn _ ndc (co_argcount code) _ _ _
            (default_body_descriptor fn)) in Ha0
    as (k2 & HK2 & Hl2 & H2 & _);
    [ | first [exact H1 | lia
              | (simpl in HI1 |- *; rewrite HI1; fold code; lia)] ..].
  fold code in Hl1, Hl2, H1, H2. fold names in Hl1, Hl2, H1, H2.
  apply bind_Done in Hrun as (st3 & Ha1 & Hrun).
  apply bind_Done in Hrun as (st4 & Ha2 & Hrun).
  set (n1 := Z.to_nat (ndc - 0)) in *.
  set (n2 := Z.to_nat (co_argcount code - ndc)) in *.
  set (n4 := Z.to_nat (co_argcount code + co_kwonlyargcount code
                       - co_argcount code)) in *.
  (* the positional part *)
  assert (([] ++ imap (fun j => positional_descriptor fn (0 + Z.of_nat j))
                   (take n1 (drop (Z.to_nat 0) names)))
          ++ imap (fun j => positional_descriptor fn (ndc + Z.of_nat j))
               (take n2 (drop (Z.to_nat ndc) names))
          = imap (fun j => positional_descriptor fn (Z.of_nat j))
              (take (Z.to_nat (co_argcount code)) names)) as Hpositional.
  { replace (Z.to_nat (co_argcount code)) with (n1 + n2)%nat by lia.
    rewrite <- take_take_drop, imap_app. simpl. rewrite drop_0 in *.
    rewrite Hl1. replace (Z.to_nat ndc) with n1 by lia.
    f_equal; apply imap_ext; intros j nm _; simpl; f_equal; lia. }
  rewrite Hpositional in H2. clear Hpositional H1.
  (* the variadic-positional block *)
  set (va := bool_decide (Z.land (co_flags code) CO_VARARGS ≠ 0)) in *.
  set (vk := bool_decide (Z.land (co_flags code) CO_VARKEYWORDS ≠ 0)) in *.
  set (part1 := imap (fun j => positional_descriptor fn (Z.of_nat j))
                  (take (Z.to_nat (co_argcount code)) names)) in *.
  set (part2 := if va
                then option_list (variadic_descriptor fn VAR_POSITIONAL
                       <$> names !! Z.to_nat (co_argcount code
                                              + co_kwonlyargcount code))
                else []).
  assert (exists k3, k2 = (length part2 + k3)%nat /\
                     filled st3 (part1 ++ part2) k3) as (k3 & HK3 & H3).
  { subst part2. destruct va.
    - destruct (var_positional_block_descriptor _ _ _ _ _ _ _ H2 Ha1)
        as (param & k3 & Hname & -> & H3).
      apply PyTuple_GetItem_Some in Hname as [_ Hname].
      fold code in Hname. fold names in Hname. rewrite Hname. simpl. eauto.
    - injection Ha1 as <-. exists k2. by rewrite app_nil_r. }
  (* the keyword-only loop *)
  eapply (for_steps_descriptors fn _ (co_argcount code)
            (co_argcount code + co_kwonlyargcount code) _ _ _
            (keyword_only_body_descriptor fn)) in Ha2
    as (k4 & HK4 & Hl4 & H4 & _);
    [ | first [exact H3 | exact I | lia] ..].
  fold code in H4, Hl4. fold names in H4, Hl4. fold n4 in H4, Hl4.
  assert (forall l, imap (fun _ : nat => keyword_only_descriptor fn) l
                    = keyword_only_descriptor fn <$> l) as Hconst
    by (intros l; apply imap_const).
  cbv beta in H4. rewrite Hconst in H4. clear Hconst.
  replace n4 with (Z.to_nat (co_kwonlyargcount code)) in * by lia.
  set (part3 := keyword_only_descriptor fn
                  <$> take (Z.to_nat (co_kwonlyargcount code))
                        (drop (Z.to_nat (co_argcount code)) names)) in *.
  (* the variadic-keyword block *)
  set (part4 := if vk
                then option_list (variadic_descriptor fn VAR_KEYWORD
                       <$> names !! Z.to_nat (co_argcount code
                                              + co_kwonlyargcount code + 1))
                else []).
  assert (exists k5, k4 = (length part4 + k5)%nat /\
                     filled st ((part1 ++ part2) ++ part3 ++ part4) k5)
    as (k5 & HK5 & H5).
  { subst part4. destruct vk eqn:Hvk.
    - apply bool_decide_eq_true_1 in Hvk.
      destruct (var_keyword_block_descriptor _ _ _ _ _ _ _ _ Hvk H4 Hrun)
        as (param & k5 & Hname & -> & H5).
      apply PyTuple_GetItem_Some in Hname as [_ Hname].
      fold code in Hname. fold names in Hname. rewrite Hname. simpl.
      exists k5. split; [done|]. by rewrite <- app_assoc in H5.
    - injection Hrun as <-. exists k4. by rewrite !app_nil_r. }
  exists k5. unfold signature_of. fold code names va vk part1 part2 part3 part4.
  rewrite <- app_assoc in H5. split; [exact H5|]. split; [|lia].
  rewrite !length_app. subst part1 part3.
  rewrite length_imap, length_fmap. rewrite drop_0 in Hl1.
  assert (length (take (Z.to_nat (co_argcount code)) names) = (n1 + n2)%nat)
    as ->.
  { replace (Z.to_nat (co_argcount code)) with (n1 + n2)%nat by lia.
    rewrite <- take_take_drop, length_app.
    replace (Z.to_nat ndc) with n1 in Hl2 by lia. lia. }
  lia.
Qed.

(** ** deduce_parameters: no store outside the array *)

Lemma for_steps_or_null body n :
  stores_or_null body ->
  forall i st ps k,
    filled st ps (n + k) ->
    (exists st' qs, for_steps n i body st = Done st' /\
                    length qs = n /\ filled st' (ps ++ qs) k)
    \/ for_steps n i body st = Crash null_dereference.
Proof.
  intros Hbody. induction n as [|n IH]; intros i st ps k Hst.
  - left. exists st, []. by rewrite app_nil_r.
  - rewrite for_steps_succ.
    destruct (Hbody i st ps (n + k)%nat Hst)
      as [(st1 & param & -> & Hst1) | ->]; [|by right]. simpl.
    destruct (IH (i + 1) st1 _ k Hst1)
      as [(st' & qs & -> & Hlen & Hst') | ->]; [|by right].
    left. exists st', (param :: qs). split; [done|]. simpl.
    split; [by rewrite Hlen|]. by rewrite <- app_assoc in Hst'.
Qed.

(** Decide a step of the shape "look the name up, then store", on
    whether the name and the annotation dictionary exist. *)
Ltac name_then_store fn i Hst :=
  destruct (PyTuple_GetItem (co_varnames (func_code fn)) i) as [param|];
  destruct (func_annotations fn) as [m|]; simpl;
  first [ left; store_completes Hst | by right ].

Lemma non_default_body_or_null fn : stores_or_null (non_default_body fn).
Proof.
  intros i st ps k Hst. unfold non_default_body.
  apply positional_kind_filled in Hst. unfold positional_kind in Hst.
  simpl in Hst. name_then_store fn i Hst.
Qed.

Lemma default_body_or_null fn ndc : stores_or_null (default_body fn ndc).
Proof.
  intros i st ps k Hst. unfold default_body.
  apply positional_kind_filled in Hst. unfold positional_kind in Hst.
  simpl in Hst. name_then_store fn i Hst.
Qed.

Lemma keyword_only_body_or_null fn : stores_or_null (keyword_only_body fn).
Proof.
  intros i st ps k Hst. unfold keyword_only_body.
  name_then_store fn i Hst.
Qed.

Lemma var_positional_block_or_null fn pos kw :
  stores_or_null (fun _ => var_positional_block fn pos kw).
Proof.
  intros i st ps k Hst. unfold var_positional_block.
  name_then_store fn (pos + kw) Hst.
Qed.

Lemma var_keyword_block_or_null fn flags pos kw :
  stores_or_null (fun _ => var_keyword_block fn flags pos kw).
Proof.
  intros i st ps k Hst. unfold var_keyword_block.
  name_then_store fn (pos + kw + logical_and flags CO_VARARGS) Hst.
Qed.

Lemma deduce_fill_or_null fn :
  0 <= co_argcount (func_code fn) ->
  0 <= co_kwonlyargcount (func_code fn) ->
  (exists st, deduce_fill fn = Done st)
  \/ deduce_fill fn = Crash null_dereference.
Proof.
  intros Hpos Hkw. unfold deduce_fill, for_range.
  set (code := func_code fn) in *.
  set (ndc := co_argcount code - Z.of_nat (length (func_defaults fn))) in *.
  pose proof (land_CO_VARARGS (co_flags code)) as Hva4.
  pose proof (land_CO_VARKEYWORDS (co_flags code)) as Hvk8.
  unfold flag_present in Hva4, Hvk8.
  set (va := bool_decide (Z.land (co_flags code) CO_VARARGS ≠ 0)) in *.
  set (vk := bool_decide (Z.land (co_flags code) CO_VARKEYWORDS ≠ 0)) in *.
  set (kw := Z.to_nat (co_argcount code + co_kwonlyargcount code
                       - co_argcount code)).
  destruct (Z.le_gt_cases 0 ndc) as [Hndc|Hneg].
  2:{ (* more defaults than positional parameters *)
    right. replace (Z.to_nat (ndc - 0)) with 0%nat by lia. simpl.
    destruct (Z.to_nat (co_argcount code - ndc)) as [|n] eqn:Hn; [lia|].
    by rewrite for_steps_succ, default_body_negative by lia. }
  set (n1 := Z.to_nat (ndc - 0)).
  set (n2 := Z.to_nat (co_argcount code - ndc)).
  assert (exists k, Z.to_nat (total_params fn)
                    = (n1 + (n2 + ((if va then 1 else 0)
                                   + (kw + ((if vk then 1 else 0) + k)))))%nat)
    as [k ->].
  { exists (Z.to_nat (3 * (if va then 1 else 0) + 7 * (if vk then 1 else 0))).
    unfold total_params. fold code. destruct va, vk; lia. }
  set (room := (n2 + ((if va then 1 else 0)
                       + (kw + ((if vk then 1 else 0) + k))))%nat).
  destruct (for_steps_or_null _ n1 (non_default_body_or_null fn) 0
              {| parameters := replicate (n1 + room) None; param_i := 0;
                 posonly_left := co_posonlyargcount code |} [] room
              ltac:(by split))
    as [(st1 & q1 & -> & _ & H1) | ->]; [|by right]. simpl.
  destruct (for_steps_or_null _ n2 (default_body_or_null fn ndc) ndc st1 _ _ H1)
    as [(st2 & q2 & -> & _ & H2) | ->]; [|by right]. simpl.
  assert ((exists st3 q3,
             (if va
              then var_positional_block fn (co_argcount code)
                     (co_kwonlyargcount code) st2
              else Done st2) = Done st3 /\
             filled st3 (([] ++ q1) ++ q2 ++ q3)
               (kw + ((if vk then 1 else 0) + k)))
          \/ (if va
              then var_positional_block fn (co_argcount code)
                     (co_kwonlyargcount code) st2
              else Done st2) = Crash null_dereference) as Hblock.
  { destruct va.
    - destruct (var_positional_block_or_null fn (co_argcount code)
                  (co_kwonlyargcount code) 0 st2 _ _ H2)
        as [(st3 & p & Hrun & H3) | Hrun]; [left | by right].
      exists st3, [p]. by rewrite <- app_assoc in H3.
    - left. exists st2, []. by rewrite app_nil_r. }
  destruct Hblock as [(st3 & q3 & -> & H3) | ->]; [|by right]. simpl.
  destruct (for_steps_or_null _ kw (keyword_only_body_or_null fn)
              (co_argcount code) st3 _ _ H3)
    as [(st4 & q4 & -> & _ & H4) | ->]; [|by right]. simpl.
  destruct vk.
  - destruct (var_keyword_block_or_null fn (co_flags code) (co_argcount code)
                (co_kwonlyargcount code) 0 st4 _ _ H4)
      as [(st5 & p & -> & _) | ->]; eauto.
  - eauto.
Qed.

(** ** Kinds in enumeration order *)

Lemma kinds_ordered_app lo mid hi ps qs :
  kinds_ordered ps -> kinds_ordered qs ->
  kinds_within lo mid ps -> kinds_within mid hi qs ->
  kinds_ordered (ps ++ qs) /\ (lo <= mid -> mid <= hi ->
                               kinds_within lo hi (ps ++ qs)).
Proof.
  intros Hps Hqs Hlo Hhi. split.
  - intros i j p q Hij Hp Hq.
    apply lookup_app_Some in Hp as [Hp | [Hi Hp]];
      apply lookup_app_Some in Hq as [Hq | [Hj Hq]].
    + by eapply Hps.
    + apply list_elem_of_lookup_2 in Hp, Hq.
      specialize (Hlo _ Hp). specialize (Hhi _ Hq). lia.
    + apply lookup_lt_Some in Hq. lia.
    + eapply Hqs; [|done..]. lia.
  - intros ? ? p [Hp | Hq]%elem_of_app.
    + specialize (Hlo _ Hp). lia.
    + specialize (Hhi _ Hq). lia.
Qed.

Lemma kinds_ordered_constant (k : py_param_kind_t) (ps : list py_param_t) :
  (forall p, p ∈ ps -> kind p = k) ->
  kinds_ordered ps /\ kinds_within (enum_value k) (enum_value k) ps.
Proof.
  intros Hk. split.
  - intros i j p q _ Hp%list_elem_of_lookup_2 Hq%list_elem_of_lookup_2.
    rewrite (Hk _ Hp), (Hk _ Hq). lia.
  - intros p Hp. rewrite (Hk _ Hp). lia.
Qed.

Lemma positional_part_ordered fn (names : list string) :
  kinds_ordered (imap (fun j => positional_descriptor fn (Z.of_nat j)) names)
  /\ kinds_within 0 1
       (imap (fun j => positional_descriptor fn (Z.of_nat j)) names).
Proof.
  split.
  - intros i j p q Hij Hp Hq. rewrite list_lookup_imap in Hp, Hq.
    destruct (names !! i) as [a|]; [|discriminate].
    destruct (names !! j) as [b|]; [|discriminate].
    injection Hp as <-. injection Hq as <-. simpl.
    destruct (Z.ltb_spec (Z.of_nat i) (co_posonlyargcount (func_code fn))),
      (Z.ltb_spec (Z.of_nat j) (co_posonlyargcount (func_code fn)));
      simpl; lia.
  - intros p (i & Hp)%list_elem_of_lookup_1. rewrite list_lookup_imap in Hp.
    destruct (names !! i) as [a|]; [|discriminate]. injection Hp as <-.
    simpl. destruct (_ <? _); simpl; lia.
Qed.

Lemma signature_of_ordered fn : kinds_ordered (signature_of fn).
Proof.
  unfold signature_of.
  set (names := co_varnames (func_code fn)).
  destruct (positional_part_ordered fn
              (take (Z.to_nat (co_argcount (func_code fn))) names)) as [Ho1 Hw1].
  assert (forall (k : py_param_kind_t) (b : bool) (o : option string),
            let l := if b then option_list (variadic_descriptor fn k <$> o)
                     else [] in
            kinds_ordered l /\ kinds_within (enum_value k) (enum_value k) l)
    as Hvar.
  { intros k b o l. apply kinds_ordered_constant. subst l.
    intros p Hp. destruct b, o; simpl in Hp;
      try (by apply elem_of_nil in Hp).
    apply list_elem_of_singleton in Hp. by subst p. }
  destruct (Hvar VAR_POSITIONAL
              (bool_decide (Z.land (co_flags (func_code fn)) CO_VARARGS ≠ 0))
              (names !! Z.to_nat (co_argcount (func_code fn)
                                  + co_kwonlyargcount (func_code fn))))
    as [Ho2 Hw2].
  destruct (Hvar VAR_KEYWORD
              (bool_decide (Z.land (co_flags (func_code fn)) CO_VARKEYWORDS ≠ 0))
              (names !! Z.to_nat (co_argcount (func_code fn)
                                  + co_kwonlyargcount (func_code fn) + 1)))
    as [Ho4 Hw4].
  destruct (kinds_ordered_constant KEYWORD_ONLY
              (keyword_only_descriptor fn
                 <$> take (Z.to_nat (co_kwonlyargcount (func_code fn)))
                       (drop (Z.to_nat (co_argcount (func_code fn))) names)))
    as [Ho3 Hw3].
  { intros p (a & -> & _)%list_elem_of_fmap. done. }
  simpl in Hw2, Hw3, Hw4.
  assert (forall lo hi lo' hi' ps, lo' <= lo -> hi <= hi' ->
            kinds_within lo hi ps -> kinds_within lo' hi' ps) as Hweaken.
  { intros lo hi lo' hi' ps ? ? Hps p Hp. specialize (Hps p Hp). lia. }
  destruct (kinds_ordered_app 3 4 4 _ _ Ho3 Ho4
              (Hweaken 3 3 3 4 _ ltac:(lia) ltac:(lia) Hw3) Hw4) as [Ho34 Hw34].
  destruct (kinds_ordered_app 2 3 4 _ _ Ho2 Ho34
              (Hweaken 2 2 2 3 _ ltac:(lia) ltac:(lia) Hw2)
              (Hw34 ltac:(lia) ltac:(lia))) as [Ho234 Hw234].
  by destruct (kinds_ordered_app 0 2 4 _ _ Ho1 Ho234
                 (Hweaken 0 1 0 2 _ ltac:(lia) ltac:(lia) Hw1)
                 (Hw234 ltac:(lia) ltac:(lia))) as [Ho _].
Qed.

(** ** What deduce_parameters leaves in wrap *)

Lemma deduce_parameters_cells fn wrap wrap' :
  0 <= co_argcount (func_code fn) ->
  0 <= co_kwonlyargcount (func_code fn) ->
  deduce_parameters fn wrap = Done wrap' ->
  exists k,
    u_params wrap' = (Some <$> signature_of fn) ++ replicate k None /\
    (length (signature_of fn) + k)%nat = Z.to_nat (total_params fn) /\
    params_cnt wrap' = total_params fn /\
    callable wrap' = callable wrap.
Proof.
  intros Hpos Hkw Hrun. unfold deduce_parameters in Hrun. unbind Hrun.
  injection Hrun as <-. simpl.
  destruct (deduce_fill_signature _ _ Hpos Hkw Ha) as (k & [Hc _] & HK & _).
  eauto.
Qed.

Lemma signature_of_length fn wrap wrap' :
  0 <= co_argcount (func_code fn) ->
  0 <= co_kwonlyargcount (func_code fn) ->
  deduce_parameters fn wrap = Done wrap' ->
  Z.of_nat (length (signature_of fn)) =
    co_argcount (func_code fn)
    + flag_present (co_flags (func_code fn)) CO_VARARGS
    + co_kwonlyargcount (func_code fn)
    + flag_present (co_flags (func_code fn)) CO_VARKEYWORDS.
Proof.
  intros Hpos Hkw Hrun.
  destruct (deduce_parameters_wrap _ _ _ Hpos Hkw Hrun) as (_ & _ & _ & <-).
  destruct (deduce_parameters_cells _ _ _ Hpos Hkw Hrun) as (k & Hc & _).
  destruct wrap' as [cells cnt c]. simpl in Hc. subst cells.
  by rewrite written_params_filled.
Qed.

(** X1.  On every function that has an annotation dictionary and whose
    raw names can be read, [deduce_parameters] completes and writes, in
    this order, one descriptor per positional parameter (positional-only
    below [co_posonlyargcount], the defaults aligned on the last
    positional parameter), one for the variadic-positional parameter, one
    per keyword-only parameter (its default looked up by name) and one for
    the variadic-keyword parameter, each with the annotation of its name;
    the callable of the binding is left as it was. *)
Theorem written_descriptors_are_signature_of fn wrap :
  readable fn ->
  exists wrap',
    deduce_parameters fn wrap = Done wrap' /\
    written_params wrap' = signature_of fn /\
    callable wrap' = callable wrap.
Proof.
  intros Hfn. pose proof Hfn as (_ & Hpos & Hkw & _).
  destruct (deduce_parameters_completes fn wrap Hfn) as [wrap' Hrun].
  exists wrap'. split; [done|].
  destruct (deduce_parameters_cells _ _ _ Hpos Hkw Hrun)
    as (k & Hc & _ & _ & Hcall).
  split; [|done]. destruct wrap' as [cells cnt c]. simpl in Hc. subst cells.
  apply written_params_filled.
Qed.

Lemma written_descriptors_are_signature_of_witness :
  exists wrap',
    deduce_parameters (Samples.annotations_read Samples.f) wrap_initial
    = Done wrap' /\
    written_params wrap' = signature_of (Samples.annotations_read Samples.f) /\
    callable wrap' = callable wrap_initial.
Proof.
  refine (written_descriptors_are_signature_of
            (Samples.annotations_read Samples.f) wrap_initial _).
  unfold readable. split; [by eexists|].
  do 4 (split; [by vm_compute|]). intros _. by vm_compute.
Defined.

(** X2.  Whatever the function object holds, if its two counts are not
    negative [deduce_parameters] never stores a descriptor outside the
    array it allocated: when it stops, it is on a null dereference, and
    the function has no annotation dictionary, or more defaults than
    positional parameters, or fewer raw names than the indices read, the
    index of the variadic-keyword name being the one line 134 computes. *)
Theorem deduce_parameters_stops_only_on_null fn wrap why :
  0 <= co_argcount (func_code fn) ->
  0 <= co_kwonlyargcount (func_code fn) ->
  deduce_parameters fn wrap = Crash why ->
  why = null_dereference /\
  (func_annotations fn = None
   \/ co_argcount (func_code fn) < Z.of_nat (length (func_defaults fn))
   \/ Z.of_nat (length (co_varnames (func_code fn)))
      < co_argcount (func_code fn) + co_kwonlyargcount (func_code fn)
        + flag_present (co_flags (func_code fn)) CO_VARARGS
   \/ (Z.land (co_flags (func_code fn)) CO_VARKEYWORDS ≠ 0 /\
       Z.of_nat (length (co_varnames (func_code fn)))
       <= co_argcount (func_code fn) + co_kwonlyargcount (func_code fn) + 1)).
Proof.
  intros Hpos Hkw Hrun. split.
  - unfold deduce_parameters in Hrun.
    destruct (deduce_fill_or_null fn Hpos Hkw) as [[st Hst] | Hst];
      rewrite Hst in Hrun; simpl in Hrun; [discriminate|].
    by injection Hrun as <-.
  - destruct (func_annotations fn) as [m|] eqn:Hann; [|by left].
    destruct (Z.lt_ge_cases (co_argcount (func_code fn))
                (Z.of_nat (length (func_defaults fn)))) as [|Hdef];
      [by right; left|].
    destruct (Z.lt_ge_cases (Z.of_nat (length (co_varnames (func_code fn))))
                (co_argcount (func_code fn) + co_kwonlyargcount (func_code fn)
                 + flag_present (co_flags (func_code fn)) CO_VARARGS))
      as [|Hnames]; [by right; right; left|].
    destruct (decide (Z.land (co_flags (func_code fn)) CO_VARKEYWORDS ≠ 0
                      /\ Z.of_nat (length (co_varnames (func_code fn)))
                         <= co_argcount (func_code fn)
                            + co_kwonlyargcount (func_code fn) + 1))
      as [|Hvk]; [by right; right; right|].
    exfalso.
    destruct (deduce_parameters_completes fn wrap) as [wrap' Hdone];
      [|congruence].
    unfold readable. rewrite Hann. split; [by eexists|].
    do 4 (split; [lia|]). intros Hflag.
    destruct (Z.lt_ge_cases
                (co_argcount (func_code fn) + co_kwonlyargcount (func_code fn) + 1)
                (Z.of_nat (length (co_varnames (func_code fn))))); [done|].
    exfalso. apply Hvk. split; [done|lia].
Qed.

Lemma deduce_parameters_stops_only_on_null_witness :
  null_dereference = null_dereference /\
  (func_annotations Samples.f = None
   \/ co_argcount (func_code Samples.f)
      < Z.of_nat (length (func_defaults Samples.f))
   \/ Z.of_nat (length (co_varnames (func_code Samples.f)))
      < co_argcount (func_code Samples.f)
        + co_kwonlyargcount (func_code Samples.f)
        + flag_present (co_flags (func_code Samples.f)) CO_VARARGS
   \/ (Z.land (co_flags (func_code Samples.f)) CO_VARKEYWORDS ≠ 0 /\
       Z.of_nat (length (co_varnames (func_code Samples.f)))
       <= co_argcount (func_code Samples.f)
          + co_kwonlyargcount (func_code Samples.f) + 1)).
Proof.
  refine (deduce_parameters_stops_only_on_null Samples.f wrap_initial
            null_dereference _ _ _).
  - simpl; lia.
  - simpl; lia.
  - vm_compute; reflexivity.
Defined.

(** X3.  A function with a variadic-keyword parameter whose raw names end
    with that parameter or before (no variadic-positional parameter and no
    local variable after it, as in [def opts( **kw ): pass]) cannot be
    registered: [deduce_parameters] looks the name up one slot after it
    and stops on the null dereference. *)
Theorem variadic_keyword_needs_a_following_name fn wrap :
  0 <= co_argcount (func_code fn) ->
  0 <= co_kwonlyargcount (func_code fn) ->
  Z.land (co_flags (func_code fn)) CO_VARKEYWORDS ≠ 0 ->
  Z.of_nat (length (co_varnames (func_code fn)))
    <= co_argcount (func_code fn) + co_kwonlyargcount (func_code fn) + 1 ->
  deduce_parameters fn wrap = Crash null_dereference.
Proof.
  intros Hpos Hkw Hvk Hshort.
  destruct (deduce_parameters fn wrap) as [wrap'|why] eqn:Hrun.
  - exfalso. pose proof (signature_of_length _ _ _ Hpos Hkw Hrun) as Hlen.
    unfold signature_of in Hlen.
    rewrite (bool_decide_eq_true_2 _ Hvk) in Hlen.
    rewrite (lookup_ge_None_2 (co_varnames (func_code fn))
               (Z.to_nat (co_argcount (func_code fn)
                          + co_kwonlyargcount (func_code fn) + 1)))
      in Hlen by lia.
    rewrite !length_app, length_imap, length_fmap in Hlen. simpl in Hlen.
    rewrite !length_take, length_drop in Hlen.
    unfold flag_present in Hlen.
    rewrite (bool_decide_eq_true_2 _ Hvk) in Hlen.
    destruct (bool_decide (Z.land (co_flags (func_code fn)) CO_VARARGS ≠ 0));
      [destruct (co_varnames (func_code fn) !! _)|]; simpl in Hlen; lia.
  - unfold deduce_parameters in Hrun.
    destruct (deduce_fill_or_null fn Hpos Hkw) as [[st Hst] | Hst];
      rewrite Hst in Hrun; simpl in Hrun; [discriminate|].
    by injection Hrun as <-.
Qed.

Lemma variadic_keyword_needs_a_following_name_witness :
  deduce_parameters
    (Samples.def "opts" ["kw"]%string (Samples.plain + CO_VARKEYWORDS)
       0 0 0 [] ∅ ∅) wrap_initial
  = Crash null_dereference.
Proof.
  refine (variadic_keyword_needs_a_following_name
            (Samples.def "opts" ["kw"]%string
               (Samples.plain + CO_VARKEYWORDS) 0 0 0 [] ∅ ∅)
            wrap_initial _ _ _ _).
  - simpl; lia.
  - simpl; lia.
  - vm_compute; discriminate.
  - simpl; lia.
Defined.

(** X4.  The descriptors [deduce_parameters] writes are in the order of
    the enumeration of kinds: positional-only, positional-or-keyword,
    variadic-positional, keyword-only, variadic-keyword. *)
Theorem written_kinds_follow_the_enumeration fn wrap wrap' :
  0 <= co_argcount (func_code fn) ->
  0 <= co_kwonlyargcount (func_code fn) ->
  deduce_parameters fn wrap = Done wrap' ->
  kinds_ordered (written_params wrap').
Proof.
  intros Hpos Hkw Hrun.
  destruct (deduce_parameters_cells _ _ _ Hpos Hkw Hrun) as (k & Hc & _).
  destruct wrap' as [cells cnt c]. simpl in Hc. subst cells.
  rewrite written_params_filled. apply signature_of_ordered.
Qed.

Lemma written_kinds_follow_the_enumeration_witness :
  kinds_ordered
    (written_params
       {| u_params :=
            (Some <$>
               [{| name := "a"; value := None; type := None;
                   kind := POSITIONAL_OR_KEYWORD |};
                {| name := "b"; value := Some (Py_Long 2); type := None;
                   kind := POSITIONAL_OR_KEYWORD |};
                {| name := "args"; value := None; type := None;
                   kind := VAR_POSITIONAL |};
                {| name := "c"; value := None; type := None;
                   kind := KEYWORD_ONLY |};
                {| name := "d"; value := Some (Py_Long 4); type := None;
                   kind := KEYWORD_ONLY |};
                {| name := "kw"; value := None; type := None;
                   kind := VAR_KEYWORD |}])
            ++ replicate 10 None;
          params_cnt := 16;
          callable := None |}).
Proof.
  refine (written_kinds_follow_the_enumeration
            (Samples.annotations_read Samples.f) wrap_initial _ _ _ _).
  - simpl; lia.
  - simpl; lia.
  - vm_compute; reflexivity.
Defined.


(** ** wrapper: calls that cannot complete *)

Lemma wrapper_reads_written_cells rt wrap call run (k : nat) :
  wrapper rt wrap call = Done run ->
  (k < Z.to_nat (params_cnt wrap))%nat ->
  exists p ty, u_params wrap !! k = Some (Some p) /\ type p = Some ty.
Proof.
  intros Hrun Hk.
  destruct (wrapper_Done _ _ _ _ Hrun) as (steps & Hlen & _ & _ & Hsteps & _).
  destruct (lookup_lt_is_Some_2 steps k ltac:(lia)) as [[made stored] Hstep].
  destruct (Hsteps _ _ _ Hstep) as (p & Hp & Hm).
  exists p. destruct (type p) as [ty|] eqn:Hty; [eauto|].
  by rewrite marshal_param_untyped in Hm.
Qed.

(** X5.  Once a function with a variadic-positional or a
    variadic-keyword parameter is bound, no call completes, whatever the
    runtime, the request and the callable: the recorded count exceeds the
    descriptors written, and [wrapper] runs into an unwritten cell (or
    stops before it). *)
Theorem variadic_binding_serves_no_call fn wrap wrap' rt c call :
  0 <= co_argcount (func_code fn) ->
  0 <= co_kwonlyargcount (func_code fn) ->
  deduce_parameters fn wrap = Done wrap' ->
  Z.land (co_flags (func_code fn)) CO_VARARGS ≠ 0
  \/ Z.land (co_flags (func_code fn)) CO_VARKEYWORDS ≠ 0 ->
  exists why, wrapper rt (bound_to c wrap') call = Crash why.
Proof.
  intros Hpos Hkw Hded Hflag.
  destruct (wrapper rt (bound_to c wrap') call) as [run|why] eqn:Hrun;
    [exfalso | by exists why].
  destruct (deduce_parameters_cells _ _ _ Hpos Hkw Hded)
    as (k & Hc & HK & Hcnt & _).
  pose proof (signature_of_length _ _ _ Hpos Hkw Hded) as Hlen.
  pose proof (land_CO_VARARGS (co_flags (func_code fn))) as Hva.
  pose proof (land_CO_VARKEYWORDS (co_flags (func_code fn))) as Hvk.
  assert (length (signature_of fn) < Z.to_nat (total_params fn))%nat as Hlt.
  { unfold total_params in *. unfold flag_present in *.
    destruct Hflag as [H|H]; rewrite (bool_decide_eq_true_2 _ H) in *;
      repeat case_bool_decide; lia. }
  destruct (wrapper_reads_written_cells rt (bound_to c wrap') call run
              (length (signature_of fn)) Hrun)
    as (p & _ & Hp & _); [simpl; by rewrite Hcnt|].
  simpl in Hp. rewrite Hc in Hp.
  rewrite lookup_app_r, length_fmap, Nat.sub_diag in Hp
    by (rewrite length_fmap; lia).
  destruct k; [lia|]. discriminate.
Qed.

Lemma variadic_binding_serves_no_call_witness :
  exists why,
    wrapper (Samples.returning Py_None)
      (bound_to (Some Samples.star)
         {| u_params := [Some {| name := "rest"; value := None;
                                 type := Some PyLong_Type;
                                 kind := VAR_POSITIONAL |};
                         None; None; None];
            params_cnt := 4;
            callable := None |})
      (Samples.request ∅ [Py_Long 1; Py_Long 2]) = Crash why.
Proof.
  refine (variadic_binding_serves_no_call Samples.star wrap_initial _
            (Samples.returning Py_None) (Some Samples.star)
            (Samples.request ∅ [Py_Long 1; Py_Long 2]) _ _ _ _).
  - by vm_compute.
  - by vm_compute.
  - vm_compute; reflexivity.
  - left. by vm_compute.
Defined.

(** X6.  A binding with a parameter that carries no annotation serves no
    call: [wrapper] tests the type of every descriptor within the count,
    and the test on the [NULL] type of that parameter is a null
    dereference. *)
Theorem unannotated_parameter_serves_no_call rt wrap call (k : nat) p :
  (k < Z.to_nat (params_cnt wrap))%nat ->
  u_params wrap !! k = Some (Some p) ->
  type p = None ->
  exists why, wrapper rt wrap call = Crash why.
Proof.
  intros Hk Hp Hty.
  destruct (wrapper rt wrap call) as [run|why] eqn:Hrun;
    [exfalso | by exists why].
  destruct (wrapper_reads_written_cells _ _ _ _ _ Hrun Hk) as (p' & ty & Hp' & Hty').
  congruence.
Qed.

Lemma unannotated_parameter_serves_no_call_witness :
  exists why,
    wrapper (Samples.returning Py_None)
      {| u_params := [Some {| name := "a"; value := None; type := None;
                              kind := POSITIONAL_OR_KEYWORD |}];
         params_cnt := 1;
         callable := Some Samples.g |}
      (Samples.request {[ "a"%string := Py_Long 1 ]} []) = Crash why.
Proof.
  refine (unannotated_parameter_serves_no_call (Samples.returning Py_None)
            _ (Samples.request {[ "a"%string := Py_Long 1 ]} []) 0
            {| name := "a"; value := None; type := None;
               kind := POSITIONAL_OR_KEYWORD |} _ _ _).
  - simpl; lia.
  - reflexivity.
  - reflexivity.
Defined.






(** ** wrapper: the getter calls and the tuple *)

Lemma try_named_cases {A : Type} (getter : string -> option A) t has_name
    param name_len got res made :
  try_named getter t has_name param name_len = (got, res, made) ->
  (made = [] /\ got = false /\ res = None)
  \/ (made = [named_access t param] /\ has_name = true /\ 0 < name_len /\
      res = getter param /\ got = bool_decide (is_Some (getter param))).
Proof.
  unfold try_named. destruct has_name; simpl; [|intros [= <- <- <-]; auto].
  destruct (Z.ltb_spec 0 name_len); intros [= <- <- <-]; auto 10.
Qed.

Lemma try_positional_cases {A : Type} (getter : Z -> option A) t has_pos got
    i res res' made :
  try_positional getter t has_pos got i res = (res', made) ->
  (made = [] /\ res' = res)
  \/ (made = [positional_access t i] /\ has_pos = true /\ got = false).
Proof.
  unfold try_positional. destruct has_pos, got; simpl; intros [= <- <-]; auto.
Qed.

Lemma try_positional_str_cases has_pos got i res res' made :
  try_positional_str has_pos got i res = (res', made) ->
  (made = [] /\ res' = res)
  \/ (made = [positional_access wire_str i] /\ has_pos = true /\ got = false).
Proof.
  unfold try_positional_str.
  destruct has_pos, got; simpl; intros [= <- <-]; auto.
Qed.

(** Every getter call of one iteration is for the descriptor of the
    iteration: by its name when it may be named, at its index when it may
    be positional, and for the wire type of its declared type. *)
Lemma marshal_param_accesses call i p made stored a :
  marshal_param call i p = Done (made, stored) ->
  a ∈ made ->
  exists ty t,
    type p = Some ty /\ wire_of ty = Some t /\
    ((a = named_access t (name p) /\ may_have_name (kind p) = true /\
      name p ≠ ""%string)
     \/ (a = positional_access t i /\ may_have_pos (kind p) = true)).
Proof.
  unfold marshal_param. destruct (type p) as [ty|]; [|discriminate].
  intros Hrun Ha. exists ty.
  assert (forall (named positional : list ujrpc_access) t,
            a ∈ named ++ positional ->
            (named = [] \/
             named = [named_access t
                        (if may_have_name (kind p) then name p else ""%string)]
             /\ may_have_name (kind p) = true /\
             0 < (if may_have_name (kind p)
                  then Z.of_nat (String.length (name p)) else -1)) ->
            (positional = [] \/
             positional = [positional_access t i] /\
             may_have_pos (kind p) = true) ->
            (a = named_access t (name p) /\ may_have_name (kind p) = true /\
             name p ≠ ""%string)
            \/ (a = positional_access t i /\ may_have_pos (kind p) = true))
    as Hshape.
  { intros named positional t [Hin|Hin]%elem_of_app Hn Hp.
    - destruct Hn as [-> | (-> & Hname & Hlen)];
        [by apply elem_of_nil in Hin|].
      apply list_elem_of_singleton in Hin as ->. rewrite Hname in *.
      left. split; [done|]. split; [done|]. by intros Hempty; rewrite Hempty in Hlen.
    - destruct Hp as [-> | (-> & Hpos)]; [by apply elem_of_nil in Hin|].
      apply list_elem_of_singleton in Hin as ->. by right. }
  destruct ty; simpl in Hrun |- *;
    try (injection Hrun as <- <-; by apply elem_of_nil in Ha).
  - destruct (try_named (ujrpc_param_named_bool call) _ _ _ _)
      as [[got res] named] eqn:Hn.
    destruct (try_positional (ujrpc_param_positional_bool call) _ _ _ _ _)
      as [res' positional] eqn:Hp.
    injection Hrun as <- <-. exists wire_bool. split; [done|]. split; [done|].
    apply try_named_cases in Hn. apply try_positional_cases in Hp.
    eapply Hshape; [done | |];
      [ destruct Hn as [(-> & _) | (-> & ? & ? & _)]; auto
      | destruct Hp as [(-> & _) | (-> & ? & _)]; auto ].
  - destruct (try_named (ujrpc_param_named_i64 call) _ _ _ _)
      as [[got res] named] eqn:Hn.
    destruct (try_positional (ujrpc_param_positional_i64 call) _ _ _ _ _)
      as [res' positional] eqn:Hp.
    injection Hrun as <- <-. exists wire_i64. split; [done|]. split; [done|].
    apply try_named_cases in Hn. apply try_positional_cases in Hp.
    eapply Hshape; [done | |];
      [ destruct Hn as [(-> & _) | (-> & ? & ? & _)]; auto
      | destruct Hp as [(-> & _) | (-> & ? & _)]; auto ].
  - destruct (try_named (ujrpc_param_named_f64 call) _ _ _ _)
      as [[got res] named] eqn:Hn.
    destruct (try_positional (ujrpc_param_positional_f64 call) _ _ _ _ _)
      as [res' positional] eqn:Hp.
    injection Hrun as <- <-. exists wire_f64. split; [done|]. split; [done|].
    apply try_named_cases in Hn. apply try_positional_cases in Hp.
    eapply Hshape; [done | |];
      [ destruct Hn as [(-> & _) | (-> & ? & ? & _)]; auto
      | destruct Hp as [(-> & _) | (-> & ? & _)]; auto ].
  - destruct (try_named (ujrpc_param_named_str call) _ _ _ _)
      as [[got res] named] eqn:Hn.
    destruct (try_positional_str _ _ _ _) as [res' positional] eqn:Hp.
    destruct res' as [text|]; [|discriminate].
    injection Hrun as <- <-. exists wire_str. split; [done|]. split; [done|].
    apply try_named_cases in Hn. apply try_positional_str_cases in Hp.
    eapply Hshape; [done | |];
      [ destruct Hn as [(-> & _) | (-> & ? & ? & _)]; auto
      | destruct Hp as [(-> & _) | (-> & ? & _)]; auto ].
Qed.

(** X7.  In a completed call every getter call is for a descriptor of
    the binding: a named getter is called with the name of a descriptor
    that may be named, a positional getter with the index of a descriptor
    that may be positional, each for the wire type of the declared type of
    that descriptor.  Nothing else is requested from the call context. *)
Theorem getter_calls_follow_the_binding rt wrap call run a :
  wrapper rt wrap call = Done run ->
  a ∈ run_accesses run ->
  exists (k : nat) p ty t,
    (k < Z.to_nat (params_cnt wrap))%nat /\
    u_params wrap !! k = Some (Some p) /\
    type p = Some ty /\ wire_of ty = Some t /\
    ((a = named_access t (name p) /\ may_have_name (kind p) = true /\
      name p ≠ ""%string)
     \/ (a = positional_access t (Z.of_nat k) /\ may_have_pos (kind p) = true)).
Proof.
  intros Hrun Ha.
  destruct (wrapper_Done _ _ _ _ Hrun)
    as (steps & Hlen & Hacc & _ & Hsteps & _).
  rewrite Hacc in Ha. apply list_elem_of_In, in_concat in Ha
    as (made & Hmade%list_elem_of_In & Ha%list_elem_of_In).
  apply list_elem_of_fmap in Hmade as ([made' stored] & -> & Hstep).
  apply list_elem_of_lookup_1 in Hstep as [k Hk].
  destruct (Hsteps _ _ _ Hk) as (p & Hp & Hm).
  destruct (marshal_param_accesses _ _ _ _ _ _ Hm Ha) as (ty & t & ? & ? & ?).
  exists k, p, ty, t. split; [|done].
  rewrite <- Hlen. by eapply lookup_lt_Some.
Qed.

Lemma getter_calls_follow_the_binding_witness :
  exists (k : nat) p ty t,
    (k < Z.to_nat 2)%nat /\
    [Some {| name := "n"; value := None; type := Some PyLong_Type;
             kind := POSITIONAL_OR_KEYWORD |};
     Some {| name := "label"; value := None; type := Some PyUnicode_Type;
             kind := POSITIONAL_OR_KEYWORD |}] !! k = Some (Some p) /\
    type p = Some ty /\ wire_of ty = Some t /\
    ((positional_access wire_i64 0 = named_access t (name p) /\
      may_have_name (kind p) = true /\ name p ≠ ""%string)
     \/ (positional_access wire_i64 0 = positional_access t (Z.of_nat k) /\
         may_have_pos (kind p) = true)).
Proof.
  refine (getter_calls_follow_the_binding (Samples.returning Py_None)
            {| u_params :=
                 [Some {| name := "n"; value := None; type := Some PyLong_Type;
                          kind := POSITIONAL_OR_KEYWORD |};
                  Some {| name := "label"; value := None;
                          type := Some PyUnicode_Type;
                          kind := POSITIONAL_OR_KEYWORD |}];
               params_cnt := 2;
               callable := Some Samples.pair |}
            (Samples.request {[ "label"%string := Py_Unicode "x" ]} [Py_Long 3])
            {| run_accesses := [named_access wire_i64 "n";
                                positional_access wire_i64 0;
                                named_access wire_str "label"];
               run_callable := Samples.pair;
               run_args := [item (Py_Long 3); item (Py_Unicode "x")];
               reply_capacity := 1024;
               reply_content := String.list_byte_of_string "null" |}
            (positional_access wire_i64 0) _ _).
  - vm_compute; reflexivity.
  - apply list_elem_of_In. simpl. auto.
Defined.

(** X8.  Supplying every parameter by name and supplying every parameter
    by position give the same call: for a binding whose descriptors may
    all be named and positional, with declared types bool, int or float,
    a request that yields each value by name and a request that yields
    the same values by position only make [wrapper] invoke the same
    callable with the same argument tuple, and reply the same bytes. *)
Theorem named_and_positional_requests_agree rt wrap by_name by_position
    run1 run2 :
  (forall k : nat, (k < Z.to_nat (params_cnt wrap))%nat ->
     exists p ty t v,
       u_params wrap !! k = Some (Some p) /\
       may_have_name (kind p) = true /\ may_have_pos (kind p) = true /\
       type p = Some ty /\ wire_of ty = Some t /\ t ≠ wire_str /\
       name p ≠ ""%string /\
       named_value by_name t (name p) = Some v /\
       named_value by_position t (name p) = None /\
       positional_value by_position t (Z.of_nat k) = Some v) ->
  wrapper rt wrap by_name = Done run1 ->
  wrapper rt wrap by_position = Done run2 ->
  run_args run1 = run_args run2 /\
  run_callable run1 = run_callable run2 /\
  reply_content run1 = reply_content run2.
Proof.
  intros Hall Hrun1 Hrun2.
  assert (run_args run1 = run_args run2) as Hargs.
  { apply list_eq. intros k.
    destruct (decide (k < Z.to_nat (params_cnt wrap))%nat) as [Hk|Hk].
    - destruct (Hall k Hk)
        as (p & ty & t & v & Hp & Hn & Hpo & Hty & Ht & Hstr & Hne
            & Hv1 & Hv2 & Hv3).
      destruct (wrapper_Done_at _ _ _ _ _ _ Hrun1 Hk Hp)
        as (made1 & stored1 & _ & _ & Hm1 & _ & -> & _).
      destruct (wrapper_Done_at _ _ _ _ _ _ Hrun2 Hk Hp)
        as (made2 & stored2 & _ & _ & Hm2 & _ & -> & _).
      rewrite (marshal_param_both by_name (Z.of_nat k) p ty t
                 Hn Hpo Hty Ht Hne), Hv1 in Hm1.
      rewrite (marshal_param_both by_position (Z.of_nat k) p ty t
                 Hn Hpo Hty Ht Hne), Hv2, Hv3 in Hm2.
      injection Hm1 as _ <-.
      destruct t; try done; by injection Hm2 as _ <-.
    - destruct (wrapper_Done _ _ _ _ Hrun1) as (s1 & Hl1 & _ & -> & _).
      destruct (wrapper_Done _ _ _ _ Hrun2) as (s2 & Hl2 & _ & -> & _).
      rewrite !lookup_ge_None_2; [done | rewrite length_fmap; lia..]. }
  destruct (wrapper_Done _ _ _ _ Hrun1) as (_ & _ & _ & _ & _ & Hc1 & _ & Hr1 & _).
  destruct (wrapper_Done _ _ _ _ Hrun2) as (_ & _ & _ & _ & _ & Hc2 & _ & Hr2 & _).
  assert (run_callable run1 = run_callable run2) as Hcall by congruence.
  split; [done|]. split; [done|]. by rewrite Hr1, Hr2, Hargs, Hcall.
Qed.

Lemma named_and_positional_requests_agree_witness :
  [item (Py_Long 3); item (Py_Bool true)] = [item (Py_Long 3); item (Py_Bool true)]
  /\ Samples.pair = Samples.pair
  /\ String.list_byte_of_string "null" = String.list_byte_of_string "null".
Proof.
  refine (named_and_positional_requests_agree (Samples.returning Py_None)
            {| u_params :=
                 [Some {| name := "n"; value := None; type := Some PyLong_Type;
                          kind := POSITIONAL_OR_KEYWORD |};
                  Some {| name := "on"; value := None;
                          type := Some PyBool_Type;
                          kind := POSITIONAL_OR_KEYWORD |}];
               params_cnt := 2;
               callable := Some Samples.pair |}
            (Samples.request {[ "n"%string := Py_Long 3;
                                "on"%string := Py_Bool true ]} [])
            (Samples.request ∅ [Py_Long 3; Py_Bool true])
            {| run_accesses := [named_access wire_i64 "n";
                                named_access wire_bool "on"];
               run_callable := Samples.pair;
               run_args := [item (Py_Long 3); item (Py_Bool true)];
               reply_capacity := 1024;
               reply_content := String.list_byte_of_string "null" |}
            {| run_accesses := [named_access wire_i64 "n";
                                positional_access wire_i64 0;
                                named_access wire_bool "on";
                                positional_access wire_bool 1];
               run_callable := Samples.pair;
               run_args := [item (Py_Long 3); item (Py_Bool true)];
               reply_capacity := 1024;
               reply_content := String.list_byte_of_string "null" |}
            _ _ _).
  - intros [|[|k]] Hk; [| |simpl in Hk; lia].
    + exists {| name := "n"; value := None; type := Some PyLong_Type;
                kind := POSITIONAL_OR_KEYWORD |}, PyLong_Type, wire_i64,
             (Py_Long 3).
      repeat split; try (vm_compute; reflexivity); discriminate.
    + exists {| name := "on"; value := None; type := Some PyBool_Type;
                kind := POSITIONAL_OR_KEYWORD |}, PyBool_Type, wire_bool,
             (Py_Bool true).
      repeat split; try (vm_compute; reflexivity); discriminate.
  - vm_compute; reflexivity.
  - vm_compute; reflexivity.
Defined.

(** ** wrapper never reads the defaults *)

Lemma for_steps_ext {S : Type} (body body' : Z -> S -> outcome S) n :
  (forall i s, body i s = body' i s) ->
  forall i s, for_steps n i body s = for_steps n i body' s.
Proof.
  intros Hext. induction n as [|n IH]; intros i s; [done|].
  rewrite !for_steps_succ, Hext. destruct (body' i s); simpl; auto.
Qed.

(** X10.  The defaults [deduce_parameters] records play no part in a
    call: erasing the default of every descriptor of the binding changes
    nothing of what [wrapper] does, for any request. *)
Theorem wrapper_never_reads_the_defaults rt wrap call :
  wrapper rt (without_defaults wrap) call = wrapper rt wrap call.
Proof.
  unfold wrapper, write_buffer, for_range.
  change (params_cnt (without_defaults wrap)) with (params_cnt wrap).
  change (callable (without_defaults wrap)) with (callable wrap).
  rewrite (for_steps_ext (wrapper_body (without_defaults wrap) call)
             (wrapper_body wrap call)); [done|].
  intros i st. unfold wrapper_body, read_param. simpl.
  rewrite list_lookup_fmap.
  destruct (u_params wrap !! Z.to_nat i) as [[p|]|]; simpl; try done.
Qed.

(** ** Registrations, one after the other *)

Lemma server_add_procedure_server self o wrap r self' wrap' :
  server_add_procedure self [o] wrap = Done (r, self', wrap') ->
  server self' = match o with
                 | py_function fn =>
                   <[func_name fn := callback_wrapper]> (server self)
                 | _ => server self
                 end.
Proof.
  unfold server_add_procedure. simpl. destruct o as [fn|b|v]; simpl.
  - intros Hrun. unbind Hrun. by injection Hrun as _ <- _.
  - discriminate.
  - by intros [= _ <- _].
Qed.

Lemma add_procedures_app l1 l2 self wrap :
  add_procedures (l1 ++ l2) self wrap =
  add_procedures l1 self wrap ≫= fun sw => add_procedures l2 sw.1 sw.2.
Proof.
  revert self wrap. induction l1 as [|o l1 IH]; intros self wrap; [done|].
  simpl. destruct (server_add_procedure self [o] wrap)
    as [[[r self1] wrap1]|]; simpl; [apply IH | done].
Qed.

(** X12.  After any sequence of registrations the names the engine routes
    are the names it routed before and the names of the functions
    registered, and no other: a registration never removes a route, and a
    refused registration adds none. *)
Theorem routed_names_after_registrations procedures self wrap self' wrap'
    (procedure : string) :
  add_procedures procedures self wrap = Done (self', wrap') ->
  is_Some (server self' !! procedure) <->
  is_Some (server self !! procedure)
  \/ exists fn, py_function fn ∈ procedures /\ func_name fn = procedure.
Proof.
  revert self wrap. induction procedures as [|o rest IH];
    intros self wrap Hrun; simpl in Hrun.
  - injection Hrun as <- _. split; [auto|].
    intros [|(fn & Hin & _)]; [done|]. by apply elem_of_nil in Hin.
  - unbind Hrun. destruct a as [[r self1] wrap1].
    pose proof Ha as Hadd.
    apply server_add_procedure_server in Ha. rewrite (IH _ _ Hrun), Ha.
    destruct o as [fn|b|v]; [|discriminate|].
    + destruct (decide (func_name fn = procedure)) as [Heq|Hne].
      * rewrite Heq, lookup_insert_eq. split; [|eauto].
        intros _. right. exists fn. split; [apply elem_of_cons; by left | done].
      * rewrite lookup_insert_ne by done. split.
        -- intros [|(fn' & Hin & Hn)]; [auto|]. right. exists fn'.
           split; [apply elem_of_cons; by right | done].
        -- intros [|(fn' & Hin & Hn)]; [auto|]. right. exists fn'.
           apply elem_of_cons in Hin as [[= ->]|Hin]; [done|]. done.
    + split.
      * intros [|(fn' & Hin & Hn)]; [auto|]. right. exists fn'.
        split; [apply elem_of_cons; by right | done].
      * intros [|(fn' & Hin & Hn)]; [auto|]. right. exists fn'.
        apply elem_of_cons in Hin as [[=]|Hin]. done.
Qed.

Lemma routed_names_after_registrations_witness :
  is_Some (<[ "second"%string := callback_wrapper ]>
             (<[ "first"%string := callback_wrapper ]>
                (server Samples.server0)) !! "first"%string) <->
  is_Some (server Samples.server0 !! "first"%string)
  \/ exists fn,
       py_function fn ∈ [py_function Samples.first; py_value (Py_Long 1);
                          py_function Samples.second]
       /\ func_name fn = "first"%string.
Proof.
  refine (routed_names_after_registrations
            [py_function Samples.first; py_value (Py_Long 1);
             py_function Samples.second]
            Samples.server0 wrap_initial
            {| config := config Samples.server0;
               server := <[ "second"%string := callback_wrapper ]>
                           (<[ "first"%string := callback_wrapper ]>
                              (server Samples.server0));
               count_added := 0;
               thread_cnt := 1 |}
            {| u_params := [Some {| name := "flag"; value := None;
                                    type := Some PyBool_Type;
                                    kind := POSITIONAL_OR_KEYWORD |}];
               params_cnt := 1;
               callable := Some Samples.second |}
            "first" _).
  vm_compute; reflexivity.
Defined.

(** X13.  Whatever was registered before, after a function is registered
    the binding is the one of that function alone: its callable, and the
    array and count deduction gives for it from the initial state. *)
Theorem last_registration_is_the_binding procedures g self wrap self' wrap' :
  add_procedures (procedures ++ [py_function g]) self wrap
    = Done (self', wrap') ->
  callable wrap' = Some g /\
  deduce_parameters g wrap_initial = Done (bound_to None wrap') /\
  server self' !! func_name g = Some callback_wrapper.
Proof.
  rewrite add_procedures_app. intros Hrun. unbind Hrun.
  destruct a as [self1 wrap1]. simpl in Hrun. unbind Hrun.
  destruct a as [[r self2] wrap2]. injection Hrun as <- <-.
  unfold server_add_procedure in Ha0. simpl in Ha0.
  apply bind_Done in Ha0 as (w & Hded & Ha0).
  injection Ha0 as _ <- <-. unfold bound_to. simpl. split; [done|].
  split; [exact (deduce_parameters_fresh _ _ _ Hded)|].
  unfold ujrpc_add_procedure. apply lookup_insert_eq.
Qed.

Lemma last_registration_is_the_binding_witness :
  exists self' wrap',
    add_procedures ([py_function Samples.first; py_function Samples.h]
                    ++ [py_function Samples.second])
      Samples.server0 wrap_initial = Done (self', wrap') /\
    callable wrap' = Some Samples.second /\
    deduce_parameters Samples.second wrap_initial = Done (bound_to None wrap') /\
    server self' !! func_name Samples.second = Some callback_wrapper.
Proof.
  eexists _, _. split; [reflexivity|].
  refine (last_registration_is_the_binding
            [py_function Samples.first; py_function Samples.h] Samples.second
            Samples.server0 wrap_initial _ _ _).
  reflexivity.
Defined.

(** X14.  Registering the same function a second time changes nothing:
    the server, its routing table and the binding are those the first
    registration left. *)
Theorem registering_twice_is_registering_once self fn wrap r self1 wrap1 :
  server_add_procedure self [py_function fn] wrap = Done (r, self1, wrap1) ->
  server_add_procedure self1 [py_function fn] wrap1 = Done (r, self1, wrap1).
Proof.
  unfold server_add_procedure. simpl. intros Hrun. unbind Hrun.
  injection Hrun as <- <- <-.
  unfold deduce_parameters in *. unbind Ha. rewrite Ha0. simpl.
  injection Ha as <-. simpl. unfold ujrpc_add_procedure.
  by rewrite insert_insert_eq.
Qed.

Lemma registering_twice_is_registering_once_witness :
  exists r self1 wrap1,
    server_add_procedure Samples.server0 [py_function Samples.pair]
      wrap_initial = Done (r, self1, wrap1) /\
    server_add_procedure self1 [py_function Samples.pair] wrap1
      = Done (r, self1, wrap1).
Proof.
  eexists _, _, _. split; [reflexivity|].
  refine (registering_twice_is_registering_once Samples.server0 Samples.pair
            wrap_initial _ _ _ _).
  reflexivity.
Defined.

(** ** server_run *)

(** More fuel than [max_cycles] changes nothing: the loop has stopped. *)
Lemma server_run_loop_fuel {W : Type} (env : run_env W) self fuel :
  forall max_cycles max_seconds start world,
    (Z.to_nat max_cycles <= fuel)%nat ->
    server_run_loop env self fuel max_cycles max_seconds start world
    = server_run_loop env self (Z.to_nat max_cycles)
        max_cycles max_seconds start world.
Proof.
  induction fuel as [|fuel IH]; intros mc ms start world Hfuel.
  - by replace (Z.to_nat mc) with 0%nat by lia.
  - destruct (Z.to_nat mc) as [|n] eqn:Hn.
    + simpl. destruct (Z.ltb_spec 0 mc); [lia | done].
    + simpl. destruct (Z.ltb_spec 0 mc); [|done]. simpl.
      destruct (double_is_positive env ms); [|done].
      destruct (take_call env (server self) (thread_cnt self) world)
        as [world'|]; [|done]. simpl.
      rewrite IH by lia. by replace (Z.to_nat (mc - 1)) with n by lia.
Qed.

Lemma server_run_loop_calls {W : Type} (env : run_env W) self fuel :
  forall max_cycles max_seconds start world,
    exists n : nat,
      (n <= fuel)%nat /\ Z.of_nat n <= Z.max 0 max_cycles /\
      server_run_loop env self fuel max_cycles max_seconds start world
      = take_calls env self n world.
Proof.
  induction fuel as [|fuel IH]; intros mc ms start world.
  - exists 0%nat. (split; [lia|]); (split; [lia|]); done.
  - simpl. destruct (Z.ltb_spec 0 mc); simpl;
      [|exists 0%nat; (split; [lia|]); (split; [lia|]); done].
    destruct (double_is_positive env ms);
      [|exists 0%nat; (split; [lia|]); (split; [lia|]); done].
    destruct (take_call env (server self) (thread_cnt self) world)
      as [world'|why] eqn:Htake.
    + simpl.
      destruct (IH (mc - 1)
                  (double_sub env ms (difftime env (time env world') start))
                  (time env world') world') as (n & Hn & Hmc & ->).
      exists (S n). simpl. rewrite Htake. (split; [lia|]); (split; [lia|]); done.
    + exists 1%nat. simpl. rewrite Htake. (split; [lia|]); (split; [lia|]); done.
Qed.

(** X15.  [server.run(max_cycles, max_seconds)] takes at most
    [max_cycles] calls from the engine, one after the other, and then
    returns [None]; it stops with the crash of a call that crashes. *)
Theorem server_run_takes_at_most_max_cycles {W : Type} (env : run_env W)
    self args world max_cycles max_seconds :
  PyArg_ParseTuple_nd env args = Some (max_cycles, max_seconds) ->
  exists n : nat,
    Z.of_nat n <= Z.max 0 max_cycles /\
    server_run env self args world
    = take_calls env self n world ≫= fun w => Done (returned Py_None, w).
Proof.
  intros Hparse. unfold server_run. rewrite Hparse.
  destruct (server_run_loop_calls env self (Z.to_nat max_cycles)
              max_cycles max_seconds (time env world) world)
    as (n & _ & Hn & ->).
  eauto.
Qed.

Lemma server_run_takes_at_most_max_cycles_witness :
  exists n : nat,
    Z.of_nat n <= Z.max 0 5 /\
    server_run one_second_per_call Samples.server0
      [py_value (Py_Long 5); py_value (Py_Float 3)] 100
    = take_calls one_second_per_call Samples.server0 n 100
      ≫= fun w => Done (returned Py_None, w).
Proof.
  refine (server_run_takes_at_most_max_cycles one_second_per_call
            Samples.server0 [py_value (Py_Long 5); py_value (Py_Float 3)]
            100 5 3 _).
  reflexivity.
Defined.

(** X16.  With a cycle count that is not positive, or a number of seconds
    that is not positive, [server.run] takes no call from the engine and
    returns [None]. *)
Theorem server_run_takes_no_call {W : Type} (env : run_env W) self args world
    max_cycles max_seconds :
  PyArg_ParseTuple_nd env args = Some (max_cycles, max_seconds) ->
  max_cycles <= 0 \/ double_is_positive env max_seconds = false ->
  server_run env self args world = Done (returned Py_None, world).
Proof.
  intros Hparse Hstop. unfold server_run. rewrite Hparse.
  destruct (Z.to_nat max_cycles) as [|n] eqn:Hn; [done|]. simpl.
  destruct Hstop as [Hmc | ->]; [lia|]. by rewrite andb_false_r.
Qed.

Lemma server_run_takes_no_call_witness :
  server_run one_second_per_call Samples.server0
    [py_value (Py_Long 5); py_value (Py_Float 0)] 100
  = Done (returned Py_None, 100).
Proof.
  refine (server_run_takes_no_call one_second_per_call Samples.server0
            [py_value (Py_Long 5); py_value (Py_Float 0)] 100 5 0 _ _).
  - reflexivity.
  - right. reflexivity.
Defined.

(** X17.  While the seconds left stay positive, [server.run] takes
    exactly [max_cycles] calls: if the seconds left, decreased after each
    call by the time that call took, pass the sign test before each of
    the [max_cycles] calls, the run is that of [max_cycles] calls of
    [ujrpc_take_call], one after the other, stopped by the first that
    crashes. *)
Theorem server_run_takes_max_cycles_calls {W : Type} (env : run_env W)
    self args world max_cycles max_seconds :
  PyArg_ParseTuple_nd env args = Some (max_cycles, max_seconds) ->
  seconds_last env self (Z.to_nat max_cycles) max_seconds (time env world)
    world = true ->
  server_run env self args world
  = take_calls env self (Z.to_nat max_cycles) world
    ≫= fun w => Done (returned Py_None, w).
Proof.
  intros Hparse. unfold server_run. rewrite Hparse. clear Hparse.
  intros Hlast. f_equal. revert Hlast.
  generalize (time env world) as start. revert world max_seconds.
  remember (Z.to_nat max_cycles) as n eqn:Hn.
  revert max_cycles Hn. induction n as [|n IH];
    intros mc Hn world ms start Hlast; [done|].
  simpl in Hlast |- *. apply andb_true_iff in Hlast as [Hpositive Hlast].
  destruct (Z.ltb_spec 0 mc); [|lia]. rewrite Hpositive. simpl.
  destruct (take_call env (server self) (thread_cnt self) world); [|done].
  simpl. apply IH; [lia | done].
Qed.

Lemma server_run_takes_max_cycles_calls_witness :
  server_run one_second_per_call Samples.server0
    [py_value (Py_Long 3); py_value (Py_Float 5)] 100
  = Done (returned Py_None, 103).
Proof.
  refine (server_run_takes_max_cycles_calls one_second_per_call
            Samples.server0 [py_value (Py_Long 3); py_value (Py_Float 5)]
            100 3 5 _ _).
  - reflexivity.
  - vm_compute; reflexivity.
Defined.

(** ** A plain function of scalars, from registration to reply *)

Lemma signature_of_plain fn :
  Z.land (co_flags (func_code fn)) CO_VARARGS = 0 ->
  Z.land (co_flags (func_code fn)) CO_VARKEYWORDS = 0 ->
  forall p, p ∈ signature_of fn ->
    type p = annotation fn (name p) /\
    name p ∈ take (Z.to_nat (co_argcount (func_code fn))
                   + Z.to_nat (co_kwonlyargcount (func_code fn)))
               (co_varnames (func_code fn)).
Proof.
  intros Hva Hvk p. unfold signature_of.
  rewrite !bool_decide_eq_false_2 by (intros H; by apply H).
  rewrite app_nil_r. simpl. rewrite <- take_take_drop.
  intros [Hp|Hp]%elem_of_app.
  - apply list_elem_of_lookup_1 in Hp as [i Hp].
    rewrite list_lookup_imap in Hp.
    destruct (take _ _ !! i) as [nm|] eqn:Hnm; [|discriminate].
    injection Hp as <-. simpl. split; [done|].
    apply elem_of_app. left. by eapply list_elem_of_lookup_2.
  - apply list_elem_of_fmap in Hp as (nm & -> & Hnm). simpl.
    split; [done|]. apply elem_of_app. by right.
Qed.

(** X18.  A function without variadic parameters whose raw names can be
    read and whose parameters are all annotated bool, int or float is
    registered and then served: the registration returns [None], and
    every call for its name completes, whatever the request holds, as
    long as the serialised return value fits the buffer; the function is
    invoked with one argument per parameter, none of them [NULL]. *)
Theorem scalar_function_is_served rt self wrap fn call :
  readable fn ->
  Z.land (co_flags (func_code fn)) CO_VARARGS = 0 ->
  Z.land (co_flags (func_code fn)) CO_VARKEYWORDS = 0 ->
  (forall param,
     param ∈ take (Z.to_nat (co_argcount (func_code fn))
                   + Z.to_nat (co_kwonlyargcount (func_code fn)))
               (co_varnames (func_code fn)) ->
     exists ty t, annotation fn param = Some ty /\ wire_of ty = Some t /\
                  t ≠ wire_str) ->
  (forall tuple,
     Z.of_nat (length (to_string rt (PyObject_CallObject rt fn tuple)).2)
     <= max_response_length) ->
  exists self' wrap' run,
    server_add_procedure self [py_function fn] wrap
      = Done (returned Py_None, self', wrap') /\
    ujrpc_take_call rt self' wrap' (func_name fn) call = Some (Done run) /\
    run_callable run = fn /\
    Z.of_nat (length (run_args run))
      = co_argcount (func_code fn) + co_kwonlyargcount (func_code fn) /\
    item_NULL ∉ run_args run.
Proof.
  intros Hfn Hva Hvk Hann Hfits. pose proof Hfn as (_ & Hpos & Hkw & _).
  destruct (deduce_parameters_completes fn wrap Hfn) as [w Hded].
  destruct (deduce_parameters_cells _ _ _ Hpos Hkw Hded)
    as (k & Hc & HK & Hcnt & _).
  pose proof (signature_of_length _ _ _ Hpos Hkw Hded) as Hlen.
  unfold flag_present in Hlen.
  rewrite !bool_decide_eq_false_2 in Hlen by (intros H; by apply H).
  assert (total_params fn
          = co_argcount (func_code fn) + co_kwonlyargcount (func_code fn))
    as Htotal by (unfold total_params; rewrite Hva, Hvk; lia).
  assert (k = 0%nat) as -> by lia. rewrite app_nil_r in Hc.
  set (wrap' := {| u_params := u_params w; params_cnt := params_cnt w;
                   callable := Some fn |}).
  set (self' := {| config := config self;
                   server := ujrpc_add_procedure (server self) (func_name fn)
                               callback_wrapper;
                   count_added := count_added self;
                   thread_cnt := thread_cnt self |}).
  destruct (wrapper_completes rt wrap' call fn) as [run Hrun];
    [| done | done |].
  { intros i Hi. simpl in Hi. rewrite Hcnt, Htotal in Hi.
    destruct (lookup_lt_is_Some_2 (signature_of fn) i ltac:(lia)) as [p Hp].
    simpl. rewrite Hc, list_lookup_fmap, Hp. simpl.
    destruct (signature_of_plain fn Hva Hvk p) as [Hty Hname];
      [by eapply list_elem_of_lookup_2|].
    destruct (Hann _ Hname) as (ty & t & Hsome & Ht & Hstr).
    exists p, ty, t. split; [done|]. split; [by rewrite Hty|done]. }
  exists self', wrap', run. split.
  { unfold server_add_procedure. simpl. by rewrite Hded. }
  split.
  { unfold ujrpc_take_call.
    change (server self')
      with (<[func_name fn := callback_wrapper]> (server self)).
    by rewrite lookup_insert_eq, Hrun. }
  destruct (wrapper_Done _ _ _ _ Hrun)
    as (steps & Hsteps & _ & Hargs & _ & Hcall & _ & _ & _ & Hset).
  simpl in Hcall. split; [congruence|]. split; [|done].
  rewrite Hargs, length_fmap, Hsteps. simpl. rewrite Hcnt, Htotal. lia.
Qed.

Lemma scalar_function_is_served_witness :
  exists self' wrap' run,
    server_add_procedure Samples.server0 [py_function Samples.scale]
      wrap_initial = Done (returned Py_None, self', wrap') /\
    ujrpc_take_call (Samples.returning Py_None) self' wrap'
      (func_name Samples.scale)
      (Samples.request {[ "n"%string := Py_Long 3 ]} []) = Some (Done run) /\
    run_callable run = Samples.scale /\
    Z.of_nat (length (run_args run))
      = co_argcount (func_code Samples.scale)
        + co_kwonlyargcount (func_code Samples.scale) /\
    item_NULL ∉ run_args run.
Proof.
  refine (scalar_function_is_served (Samples.returning Py_None)
            Samples.server0 wrap_initial Samples.scale
            (Samples.request {[ "n"%string := Py_Long 3 ]} []) _ _ _ _ _).
  - unfold readable. split; [by eexists|]. do 4 (split; [by vm_compute|]).
    intros Hflag. by vm_compute in Hflag.
  - reflexivity.
  - reflexivity.
  - intros param Hparam. simpl in Hparam.
    apply elem_of_cons in Hparam as [->|Hparam].
    + exists PyLong_Type, wire_i64. by vm_compute.
    + apply list_elem_of_singleton in Hparam as ->.
      exists PyFloat_Type, wire_f64. by vm_compute.
  - intros tuple. vm_compute. discriminate.
Defined.
